(** * Order placement over the Django models of [database/models.py]

    A shallow embedding of [PostgreSQLHandler] ([database/PostgreSQLHandler.py];
    [database/database_handler.py] carries the same methods) and of the
    models it drives.  The embedding covers the handler once [django.setup()]
    has succeeded ([DJANGO_SETUP = True]); otherwise every method returns at
    its first line and no database exists.

    Conventions:
    - a [DecimalField(decimal_places=2)] value is an integer number of
      hundredths (50000.00 is [5000000]); [max_digits=d] then bounds the
      absolute value by [10^d].  [float(...)] of such a value and the
      [+=] accumulation of [create_order] are taken as exact: the column
      rounds what it is given to two places, which absorbs the error of
      binary floating point on amounts of this size;
    - a Python [str] is the string of its UTF-8 bytes;
    - timestamps ([order_date], [created_at], [updated_at]) are left out;
    - a row of [customers], [products] or [orders] is kept under its primary
      key, and an instance is that key with the field values; keys are
      allocated fresh (one above the largest key stored). *)

From stdpp Require Import gmap strings list fin_maps pretty.

Local Open Scope string_scope.
Local Open Scope list_scope.
Local Open Scope Z_scope.

(** ** Column types *)

(** [DecimalField(max_digits, decimal_places=2)]: numeric(max_digits, 2). *)
Definition decimal_fits (max_digits : Z) (hundredths : Z) : bool :=
  Z.abs hundredths <? 10 ^ max_digits.

(** A byte [10xxxxxx] continues a UTF-8 character started earlier. *)
Definition is_continuation_byte (a : Ascii.ascii) : bool :=
  let n := Ascii.N_of_ascii a in ((128 <=? n) && (n <? 192))%N.

(** [len(s)] of a Python [str], counted on its UTF-8 bytes. *)
Fixpoint char_length (s : string) : Z :=
  match s with
  | EmptyString => 0
  | String a s' => (if is_continuation_byte a then 0 else 1) + char_length s'
  end.

(** [CharField(max_length)]: varchar(max_length). *)
Definition char_fits (max_length : Z) (s : string) : bool :=
  char_length s <=? max_length.

(** [s in t] on strings. *)
Definition includes (s t : string) : Prop :=
  ∃ pre post, t = pre +:+ s +:+ post.

(** ** Models *)

(** An instance of a keyed model: [pk] and the values of its fields. *)
Record instance (A : Type) := mk_instance { pk : Z; fields : A }.
Arguments mk_instance {A} pk fields.
Arguments pk {A} i.
Arguments fields {A} i.

Module Customer.
Record t := mk {
  first_name : string;
  last_name : string;
  email : string;
  phone : string;
  address : string }.

Definition str (self : t) : string :=
  last_name self +:+ " " +:+ first_name self.
End Customer.

Module Product.
Record t := mk {
  name : string;
  description : string;
  category : string;
  price : Z;
  quantity : Z;
  sku : string;
  is_active : bool }.

Definition with_quantity (f : t) (q : Z) : t :=
  mk (name f) (description f) (category f) (price f) q (sku f) (is_active f).

(** [self.quantity = q]. *)
Definition set_quantity (self : instance t) (q : Z) : instance t :=
  mk_instance (pk self) (with_quantity (fields self) q).

Definition str (self : t) : string :=
  name self +:+ " (" +:+ sku self +:+ ")".
End Product.

Module Order.
Definition STATUS_CHOICES : list string :=
  ["pending"; "processing"; "shipped"; "delivered"; "cancelled"].

Record t := mk {
  customer : Z;
  status : string;
  total_amount : Z;
  notes : string }.

Definition with_status (f : t) (s : string) : t :=
  mk (customer f) s (total_amount f) (notes f).

Definition with_total_amount (f : t) (a : Z) : t :=
  mk (customer f) (status f) a (notes f).

(** [self.status = s]. *)
Definition set_status (self : instance t) (s : string) : instance t :=
  mk_instance (pk self) (with_status (fields self) s).

(** [self.total_amount = a]. *)
Definition set_total_amount (self : instance t) (a : Z) : instance t :=
  mk_instance (pk self) (with_total_amount (fields self) a).
End Order.

Module OrderItem.
(** An instance has no [id] before its first INSERT, and no [total_price]
    until [save] computes one. *)
Record t := mk {
  id : option Z;
  order : Z;
  product : Z;
  quantity : Z;
  unit_price : Z;
  total_price : option Z }.

Definition set_id (self : t) (i : Z) : t :=
  mk (Some i) (order self) (product self) (quantity self) (unit_price self)
     (total_price self).

Definition set_total_price (self : t) (p : Z) : t :=
  mk (id self) (order self) (product self) (quantity self) (unit_price self)
     (Some p).

(** [unique_together = ['order', 'product']]: do two rows clash? *)
Definition same_pair (a b : t) : bool :=
  bool_decide (order a = order b) && bool_decide (product a = product b).
End OrderItem.

(** One entry of the [items] argument of [create_order]:
    [{'product_id': ..., 'quantity': ...}]. *)
Module Item.
Record t := mk { product_id : Z; quantity : Z }.
End Item.

(** ** The database *)

Record DB := mkDB {
  customers : gmap Z Customer.t;
  products : gmap Z Product.t;
  orders : gmap Z Order.t;
  order_items : list OrderItem.t }.

Definition empty_db : DB := mkDB ∅ ∅ ∅ [].

Definition set_customers (db : DB) (c : gmap Z Customer.t) : DB :=
  mkDB c (products db) (orders db) (order_items db).
Definition set_products (db : DB) (p : gmap Z Product.t) : DB :=
  mkDB (customers db) p (orders db) (order_items db).
Definition set_orders (db : DB) (o : gmap Z Order.t) : DB :=
  mkDB (customers db) (products db) o (order_items db).
Definition set_order_items (db : DB) (l : list OrderItem.t) : DB :=
  mkDB (customers db) (products db) (orders db) l.

(** The next value of an AutoField over a keyed table. *)
Definition fresh_pk {A} (m : gmap Z A) : Z :=
  1 + map_fold (λ k _ acc, Z.max k acc) 0 m.

(** The same over the rows of [order_items]. *)
Definition fresh_item_pk (l : list OrderItem.t) : Z :=
  1 + foldr Z.max 0 (omap OrderItem.id l).

(** The lines of one order, as [order.items.all()] would list them. *)
Definition lines_of (db : DB) (order_id : Z) : list OrderItem.t :=
  filter (λ r, OrderItem.order r = order_id) (order_items db).

(** ** Exceptions, and the monad of a request *)

Inductive exn :=
| ObjectDoesNotExist (model : string)
| ValueError (msg : string)
| IntegrityError (detail : string)
| DataError (detail : string)
| TypeError (detail : string).

(** [str(e)].  Only [ValueError] is worded by the handler; for the
    exceptions of the ORM and of the backend the text is theirs, abridged
    here. *)
Definition exn_str (e : exn) : string :=
  match e with
  | ObjectDoesNotExist model => model +:+ " matching query does not exist."
  | ValueError msg => msg
  | IntegrityError detail => detail
  | DataError detail => detail
  | TypeError detail => detail
  end.

Inductive result (A : Type) :=
| Ok (a : A)
| Raise (e : exn).
Arguments Ok {A} a.
Arguments Raise {A} e.

(** What a call threads along: the tables as the open transaction sees
    them, what was printed, and the flag of [transaction.set_rollback]. *)
Record Tx := mkTx {
  store : DB;
  stdout : list string;
  needs_rollback : bool }.

Definition M (A : Type) : Type := Tx → result A * Tx.

#[global] Instance M_ret : MRet M := λ A a tx, (Ok a, tx).

#[global] Instance M_bind : MBind M := λ A B f m tx,
  match m tx with
  | (Ok a, tx') => f a tx'
  | (Raise e, tx') => (Raise e, tx')
  end.

Definition raise {A} (e : exn) : M A := λ tx, (Raise e, tx).

(** [try: body  except Exception as e: handler(e)]. *)
Definition try_except {A} (body : M A) (handler : exn → M A) : M A := λ tx,
  match body tx with
  | (Ok a, tx') => (Ok a, tx')
  | (Raise e, tx') => handler e tx'
  end.

Definition get_store : M DB := λ tx, (Ok (store tx), tx).

Definition put_store (db : DB) : M unit := λ tx,
  (Ok (), mkTx db (stdout tx) (needs_rollback tx)).

Definition print (line : string) : M unit := λ tx,
  (Ok (), mkTx (store tx) (stdout tx ++ [line]) (needs_rollback tx)).

(** [transaction.set_rollback(flag)]. *)
Definition set_rollback (flag : bool) : M unit := λ tx,
  (Ok (), mkTx (store tx) (stdout tx) flag).

(** [@transaction.atomic]: the body runs on the tables of [db]; they are
    kept when it returns normally with the rollback flag down, and restored
    when the flag is up or an exception leaves the block. *)
Definition atomic {A} (body : M A) (db : DB) : result A * DB * list string :=
  match body (mkTx db [] false) with
  | (Ok a, tx) => (Ok a, if needs_rollback tx then db else store tx, stdout tx)
  | (Raise e, tx) => (Raise e, db, stdout tx)
  end.

(** ** The ORM calls the handler makes *)

(** [Customer.objects.get(id=customer_id)]. *)
Definition Customer_objects_get (customer_id : Z) : M (instance Customer.t) :=
  db ← get_store;
  match customers db !! customer_id with
  | Some row => mret (mk_instance customer_id row)
  | None => raise (ObjectDoesNotExist "Customer")
  end.

(** [Product.objects.get(id=product_id)]. *)
Definition Product_objects_get (product_id : Z) : M (instance Product.t) :=
  db ← get_store;
  match products db !! product_id with
  | Some row => mret (mk_instance product_id row)
  | None => raise (ObjectDoesNotExist "Product")
  end.

(** [Order.objects.get(id=order_id)]. *)
Definition Order_objects_get (order_id : Z) : M (instance Order.t) :=
  db ← get_store;
  match orders db !! order_id with
  | Some row => mret (mk_instance order_id row)
  | None => raise (ObjectDoesNotExist "Order")
  end.

(** [product.save()] on an instance read from the table: UPDATE of its row.
    The handler saves a product only after changing its [quantity]; the
    other columns keep the values the table already holds and an
    [IntegerField] declares no constraint, so the statement goes through. *)
Definition Product_save (self : instance Product.t) : M unit :=
  db ← get_store;
  put_store (set_products db (<[pk self := fields self]> (products db))).

(** [order.save()]: the row under the instance's key is written, provided
    [status] fits [max_length=20] and [total_amount] fits [max_digits=12]. *)
Definition Order_save (self : instance Order.t) : M unit :=
  db ← get_store;
  if negb (char_fits 20 (Order.status (fields self))) then
    raise (DataError "value too long for type character varying(20)")
  else if negb (decimal_fits 12 (Order.total_amount (fields self))) then
    raise (DataError "numeric field overflow")
  else put_store (set_orders db (<[pk self := fields self]> (orders db))).

(** [Order.objects.create(customer=customer, notes=notes)]: [status] and
    [total_amount] take their defaults, ['pending'] and [0]. *)
Definition Order_objects_create (customer : instance Customer.t)
    (notes : string) : M (instance Order.t) :=
  db ← get_store;
  let order :=
    mk_instance (fresh_pk (orders db))
      (Order.mk (pk customer) "pending" 0 notes) in
  Order_save order;;
  mret order.

Definition has_pk (key : Z) (row : OrderItem.t) : bool :=
  bool_decide (OrderItem.id row = Some key).

(** INSERT of one row into [order_items], under [unique_together]. *)
Definition OrderItem_insert (row : OrderItem.t) : M OrderItem.t :=
  db ← get_store;
  if existsb (OrderItem.same_pair row) (order_items db) then
    raise (IntegrityError
      "duplicate key value violates unique constraint on (order_id, product_id)")
  else
    put_store (set_order_items db (order_items db ++ [row]));;
    mret row.

(** UPDATE of the row of key [key], under [unique_together]. *)
Definition OrderItem_update (key : Z) (row : OrderItem.t) : M OrderItem.t :=
  db ← get_store;
  if existsb (λ r, negb (has_pk key r) && OrderItem.same_pair row r)
       (order_items db) then
    raise (IntegrityError
      "duplicate key value violates unique constraint on (order_id, product_id)")
  else
    put_store (set_order_items db
      ((λ r, if has_pk key r then row else r) <$> order_items db));;
    mret row.

(** [super().save()] of an [OrderItem]: [models.Model.save].  Both prices
    must fit [max_digits=10]; an instance with a key updates its row when
    there is one, and is inserted otherwise. *)
Definition OrderItem_super_save (self : OrderItem.t) : M OrderItem.t :=
  db ← get_store;
  match OrderItem.total_price self with
  | None =>
      raise (IntegrityError "null value in column total_price")
  | Some total_price =>
      if negb (decimal_fits 10 (OrderItem.unit_price self)
               && decimal_fits 10 total_price) then
        raise (DataError "numeric field overflow")
      else
        match OrderItem.id self with
        | Some key =>
            if existsb (has_pk key) (order_items db)
            then OrderItem_update key self
            else OrderItem_insert self
        | None =>
            OrderItem_insert
              (OrderItem.set_id self (fresh_item_pk (order_items db)))
        end
  end.

(** [OrderItem.save] (models.py, 191-194): the instance as it stands after
    the call is returned. *)
Definition OrderItem_save (self : OrderItem.t) : M OrderItem.t :=
  let self :=
    OrderItem.set_total_price self
      (OrderItem.unit_price self * OrderItem.quantity self) in
  OrderItem_super_save self.

(** [OrderItem.objects.create(order=, product=, quantity=, unit_price=)]. *)
Definition OrderItem_objects_create (order : instance Order.t)
    (product : instance Product.t) (quantity unit_price : Z) : M OrderItem.t :=
  OrderItem_save
    (OrderItem.mk None (pk order) (pk product) quantity unit_price None).

(** [float(d)] of a model's decimal attribute. *)
Definition float (d : option Z) : M Z :=
  match d with
  | Some v => mret v
  | None => raise (TypeError "float() argument must be a string or a real number")
  end.

(** ** PostgreSQLHandler *)

(** The message of the [ValueError] of [create_order] (line 165). *)
Definition insufficient_stock_message (product : instance Product.t)
    (item : Item.t) : string :=
  "Недостаточно товара: " +:+ Product.name (fields product)
  +:+ ". На складе: " +:+ pretty (Product.quantity (fields product))
  +:+ ", требуется: " +:+ pretty (Item.quantity item).

(** The [for item in items] loop of [create_order] (lines 160-179), with
    the running [total_amount]. *)
Fixpoint create_order_loop (order : instance Order.t) (items : list Item.t)
    (total_amount : Z) : M Z :=
  match items with
  | [] => mret total_amount
  | item :: rest =>
      product ← Product_objects_get (Item.product_id item);
      (if Product.quantity (fields product) <? Item.quantity item
       then raise (ValueError (insufficient_stock_message product item))
       else mret ());;
      order_item ←
        OrderItem_objects_create order product (Item.quantity item)
          (Product.price (fields product));
      Product_save
        (Product.set_quantity product
           (Product.quantity (fields product) - Item.quantity item));;
      line ← float (OrderItem.total_price order_item);
      create_order_loop order rest (total_amount + line)
  end.

(** The [try] block of [create_order] (lines 156-186). *)
Definition create_order_try (customer_id : Z) (items : list Item.t)
    (notes : string) : M (option (instance Order.t)) :=
  customer ← Customer_objects_get customer_id;
  order ← Order_objects_create customer notes;
  total_amount ← create_order_loop order items 0;
  let order := Order.set_total_amount order total_amount in
  Order_save order;;
  print ("✅ Заказ создан: #" +:+ pretty (pk order));;
  mret (Some order).

(** The first [except] clause names these classes (line 188). *)
Definition is_expected (e : exn) : bool :=
  match e with
  | ObjectDoesNotExist _ | ValueError _ | IntegrityError _ => true
  | _ => false
  end.

(** The two [except] clauses of [create_order] (lines 188-195). *)
Definition create_order_except (e : exn) : M (option (instance Order.t)) :=
  (if is_expected e
   then print ("❌ Ошибка при создании заказа: " +:+ exn_str e)
   else print ("❌ Неожиданная ошибка при создании заказа: " +:+ exn_str e));;
  set_rollback true;;
  mret None.

(** [PostgreSQLHandler.create_order]: what it returns, the tables it leaves
    and what it printed. *)
Definition create_order (db : DB) (customer_id : Z) (items : list Item.t)
    (notes : string) : result (option (instance Order.t)) * DB * list string :=
  atomic
    (try_except (create_order_try customer_id items notes) create_order_except)
    db.

(** The [try] block of [update_order_status] (lines 226-230). *)
Definition update_order_status_try (order_id : Z) (new_status : string)
  : M bool :=
  order ← Order_objects_get order_id;
  let order := Order.set_status order new_status in
  Order_save order;;
  print ("✅ Статус заказа #" +:+ pretty order_id +:+ " обновлен на '"
         +:+ new_status +:+ "'");;
  mret true.

(** Its two [except] clauses (lines 231-236). *)
Definition update_order_status_except (order_id : Z) (e : exn) : M bool :=
  match e with
  | ObjectDoesNotExist _ =>
      print ("❌ Заказ с ID " +:+ pretty order_id +:+ " не найден");;
      mret false
  | _ =>
      print ("❌ Неожиданная ошибка при обновлении статуса: " +:+ exn_str e);;
      mret false
  end.

(** [PostgreSQLHandler.update_order_status]. *)
Definition update_order_status (db : DB) (order_id : Z) (new_status : string)
  : result bool * DB * list string :=
  atomic
    (try_except (update_order_status_try order_id new_status)
       (update_order_status_except order_id))
    db.

(** [Customer.objects.create] on the keyword arguments: [email] is unique
    ([EmailField] is a varchar(254)). *)
Definition Customer_objects_create (kwargs : Customer.t)
  : M (instance Customer.t) :=
  db ← get_store;
  let customer := mk_instance (fresh_pk (customers db)) kwargs in
  if negb (char_fits 100 (Customer.first_name kwargs)
           && char_fits 100 (Customer.last_name kwargs)
           && char_fits 254 (Customer.email kwargs)
           && char_fits 20 (Customer.phone kwargs)) then
    raise (DataError "value too long for type character varying")
  else if existsb
            (λ c, bool_decide (Customer.email c = Customer.email kwargs))
            (snd <$> map_to_list (customers db)) then
    raise (IntegrityError
      "duplicate key value violates unique constraint on email")
  else
    put_store (set_customers db (<[pk customer := kwargs]> (customers db)));;
    mret customer.

(** [Product.objects.create] on the keyword arguments: [sku] is unique.
    The validators of [price] and [quantity] belong to [full_clean], which
    neither [create] nor [save] calls. *)
Definition Product_objects_create (kwargs : Product.t)
  : M (instance Product.t) :=
  db ← get_store;
  let product := mk_instance (fresh_pk (products db)) kwargs in
  if negb (char_fits 200 (Product.name kwargs)
           && char_fits 50 (Product.category kwargs)
           && char_fits 50 (Product.sku kwargs)
           && decimal_fits 10 (Product.price kwargs)) then
    raise (DataError "value out of range for its column")
  else if existsb (λ p, bool_decide (Product.sku p = Product.sku kwargs))
            (snd <$> map_to_list (products db)) then
    raise (IntegrityError
      "duplicate key value violates unique constraint on sku")
  else
    put_store (set_products db (<[pk product := kwargs]> (products db)));;
    mret product.

(** The [except] clauses of [create_customer] (lines 74-79). *)
Definition create_customer_except (e : exn)
  : M (option (instance Customer.t)) :=
  match e with
  | IntegrityError _ =>
      print ("❌ Ошибка при создании клиента (дубликат email): "
             +:+ exn_str e);;
      mret None
  | _ =>
      print ("❌ Неожиданная ошибка при создании клиента: " +:+ exn_str e);;
      mret None
  end.

(** [PostgreSQLHandler.create_customer] (lines 64-79). *)
Definition create_customer (db : DB) (kwargs : Customer.t)
  : result (option (instance Customer.t)) * DB * list string :=
  atomic
    (try_except
       (customer ← Customer_objects_create kwargs;
        print ("✅ Клиент создан: " +:+ Customer.str (fields customer));;
        mret (Some customer))
       create_customer_except)
    db.

(** The [except] clauses of [create_product] (lines 119-124). *)
Definition create_product_except (e : exn)
  : M (option (instance Product.t)) :=
  match e with
  | IntegrityError _ =>
      print ("❌ Ошибка при создании товара (дубликат артикула): "
             +:+ exn_str e);;
      mret None
  | _ =>
      print ("❌ Неожиданная ошибка при создании товара: " +:+ exn_str e);;
      mret None
  end.

(** [PostgreSQLHandler.create_product] (lines 109-124). *)
Definition create_product (db : DB) (kwargs : Product.t)
  : result (option (instance Product.t)) * DB * list string :=
  atomic
    (try_except
       (product ← Product_objects_create kwargs;
        print ("✅ Товар создан: " +:+ Product.str (fields product));;
        mret (Some product))
       create_product_except)
    db.

(** The calls of the handler that write to the four tables through the
    ORM.  ([create_student] writes to a table of its own, and
    [execute_custom_query] runs SQL text of the caller's: both are outside
    this embedding.) *)
Inductive call :=
| CreateCustomer (kwargs : Customer.t)
| CreateProduct (kwargs : Product.t)
| CreateOrder (customer_id : Z) (items : list Item.t) (notes : string)
| UpdateOrderStatus (order_id : Z) (new_status : string).

(** The tables after one call. *)
Definition run_call (c : call) (db : DB) : DB :=
  match c with
  | CreateCustomer kwargs => (create_customer db kwargs).1.2
  | CreateProduct kwargs => (create_product db kwargs).1.2
  | CreateOrder customer_id items notes =>
      (create_order db customer_id items notes).1.2
  | UpdateOrderStatus order_id new_status =>
      (update_order_status db order_id new_status).1.2
  end.

(** ** Schema invariants *)




(** What the schema guarantees of any stored state and the handler relies
    on: the foreign key of a line to its order, and the range of the
    [total_amount] column. *)
Definition schema_ok (db : DB) : Prop :=
  (∀ r, r ∈ order_items db → is_Some (orders db !! OrderItem.order r))
  ∧ (∀ oid o, orders db !! oid = Some o →
       decimal_fits 12 (Order.total_amount o) = true).

(** ** Derived forms used in the statements *)

Definition sum_Z (l : list Z) : Z := foldr Z.add 0 l.

(** The row [create_order] inserts for one accepted line. *)
Definition new_line (order : instance Order.t) (product_id : Z)
    (row : Product.t) (quantity : Z) (db : DB) : OrderItem.t :=
  OrderItem.mk (Some (fresh_item_pk (order_items db))) (pk order) product_id
    quantity (Product.price row) (Some (Product.price row * quantity)).

(** The tables after one accepted line. *)
Definition after_line (order : instance Order.t) (item : Item.t)
    (row : Product.t) (db : DB) : DB :=
  mkDB (customers db)
    (<[Item.product_id item :=
         Product.with_quantity row (Product.quantity row - Item.quantity item)]>
       (products db))
    (orders db)
    (order_items db
       ++ [new_line order (Item.product_id item) row (Item.quantity item) db]).

(** The order [create_order] starts from, and the tables holding it. *)
Definition pending_order (customer_id : Z) (notes : string) (db : DB)
  : instance Order.t :=
  mk_instance (fresh_pk (orders db)) (Order.mk customer_id "pending" 0 notes).

Definition with_order (order : instance Order.t) (db : DB) : DB :=
  set_orders db (<[pk order := fields order]> (orders db)).

(** A stored line [r] of order [order_id] answers the request [item]: the
    product and quantity asked, at the price the product has in [m]. *)
Definition line_of_request (m : gmap Z Product.t) (order_id : Z)
    (item : Item.t) (r : OrderItem.t) : Prop :=
  OrderItem.order r = order_id
  ∧ OrderItem.product r = Item.product_id item
  ∧ OrderItem.quantity r = Item.quantity item
  ∧ ∃ p, m !! Item.product_id item = Some p
         ∧ OrderItem.unit_price r = Product.price p
         ∧ OrderItem.total_price r
           = Some (OrderItem.unit_price r * OrderItem.quantity r).

(** The amount one requested line comes to at the prices of [m], and the
    amount of a whole request. *)
Definition line_amount (m : gmap Z Product.t) (item : Item.t) : Z :=
  match m !! Item.product_id item with
  | Some p => Product.price p * Item.quantity item
  | None => 0
  end.

Definition request_total (m : gmap Z Product.t) (items : list Item.t) : Z :=
  sum_Z (line_amount m <$> items).

(** The state machine of [Order.status] as the specification words it
    (section 4.1): the forward edges and the two cancellation edges.
    [update_order_status] has no counterpart of it. *)
Definition spec_edges : list (string * string) :=
  [("pending", "processing"); ("processing", "shipped");
   ("shipped", "delivered"); ("pending", "cancelled");
   ("processing", "cancelled")].

Definition spec_transition (current requested : string) : bool :=
  bool_decide ((current, requested) ∈ spec_edges).

(** ** Sample states, after [create_test_data] *)

Definition ivanov : Customer.t :=
  Customer.mk "Иван" "Иванов" "ivan@test.com" "+79991234567" "".

Definition notebook : Product.t :=
  Product.mk "Ноутбук HP" "Мощный ноутбук" "electronics" 5000000 10 "NB001"
    true.

Definition smartphone : Product.t :=
  Product.mk "Смартфон Samsung" "Современный смартфон" "electronics" 3000000
    15 "PH001" true.

(** One customer, the two products, no order yet. *)
Definition shop : DB :=
  mkDB {[1 := ivanov]} (<[2 := smartphone]> {[1 := notebook]}) ∅ [].


(** One order, already delivered. *)
Definition delivered : DB :=
  mkDB {[1 := ivanov]} ∅ {[1 := Order.mk 1 "delivered" 0 ""]} [].

(** ** The rest of the handler *)

(** A method without [@transaction.atomic] runs in autocommit: what its
    statements wrote stays written. *)
Definition autocommit {A} (body : M A) (db : DB)
  : result A * DB * list string :=
  match body (mkTx db [] false) with
  | (r, tx) => (r, store tx, stdout tx)
  end.



(** [list(Product.objects.filter(...))]: the rows that pass, each with its
    key.  [Product] declares no ordering, so the order of the list is the
    backend's; here it is that of [map_to_list]. *)
Definition Product_objects_filter (keep : Product.t → bool)
  : M (list (instance Product.t)) :=
  db ← get_store;
  mret ((λ kr, mk_instance kr.1 kr.2)
          <$> filter (λ kr, keep kr.2 = true) (map_to_list (products db))).


(** [PostgreSQLHandler.get_low_stock_products] (lines 137-146); a caller
    that passes no [threshold] gets 10. *)
Definition get_low_stock_products (db : DB) (threshold : Z)
  : result (list (instance Product.t)) * DB * list string :=
  autocommit
    (try_except
       (Product_objects_filter
          (λ p, (Product.quantity p <? threshold) && Product.is_active p))
       (λ e, print ("❌ Ошибка при получении товаров: " +:+ exn_str e);;
             mret []))
    db.

(** The dictionary [get_database_stats] returns. *)
Module Stats.
Record t := mk {
  customers : Z;
  products : Z;
  active_products : Z;
  orders : Z;
  pending_orders : Z }.
End Stats.

(** [Model.objects.count()] and [Model.objects.filter(...).count()]. *)
Definition count {A} (m : gmap Z A) : Z := Z.of_nat (size m).

Definition count_where {A} (keep : A → bool) (m : gmap Z A) : Z :=
  Z.of_nat (size (filter (λ kr, keep kr.2 = true) m)).

(** [PostgreSQLHandler.get_database_stats] (lines 258-274). *)
Definition get_database_stats (db : DB)
  : result Stats.t * DB * list string :=
  autocommit
    (db ← get_store;
     mret (Stats.mk
             (count (customers db))
             (count (products db))
             (count_where Product.is_active (products db))
             (count (orders db))
             (count_where (λ o, bool_decide (Order.status o = "pending"))
                (orders db))))
    db.

(** ** More invariants of the tables *)

(** [email] is unique among customers, [sku] among products. *)
Definition unique_emails (db : DB) : Prop :=
  ∀ k1 k2 c1 c2,
    customers db !! k1 = Some c1 → customers db !! k2 = Some c2 →
    Customer.email c1 = Customer.email c2 → k1 = k2.


(** The three foreign keys: an order to its customer, a line to its order
    and to its product. *)
Definition foreign_keys_ok (db : DB) : Prop :=
  (∀ oid o, orders db !! oid = Some o →
     is_Some (customers db !! Order.customer o))
  ∧ (∀ r, r ∈ order_items db →
       is_Some (orders db !! OrderItem.order r)
       ∧ is_Some (products db !! OrderItem.product r)).



(** Units of a product in stock, and units of it on order lines. *)
Definition on_hand (db : DB) (product_id : Z) : Z :=
  match products db !! product_id with
  | Some row => Product.quantity row
  | None => 0
  end.

Definition on_order (db : DB) (product_id : Z) : Z :=
  sum_Z (OrderItem.quantity
           <$> filter (λ r, OrderItem.product r = product_id) (order_items db)).

(** The tables after a sequence of calls. *)
Definition run_calls (cs : list call) (db : DB) : DB :=
  foldl (λ d c, run_call c d) db cs.

(** ** Setting the database up ([database/database_handler.py]) *)

(** [db_table] of [Customer], [Product], [Order] and [OrderItem], in the
    order of [models_to_create]. *)
Definition models_to_create : list string :=
  ["customers"; "products"; "orders"; "order_items"].

(** The loop of [_ensure_tables] (lines 290-297) over the tables that
    exist: those that exist afterwards, and the lines printed. *)
Fixpoint ensure_tables_loop (models : list string)
    (existing_tables : gset string) : gset string * list string :=
  match models with
  | [] => (existing_tables, [])
  | table :: rest =>
      if bool_decide (table ∈ existing_tables) then
        ensure_tables_loop rest existing_tables
      else
        let '(tables, out) :=
          ensure_tables_loop rest ({[table]} ∪ existing_tables) in
        (tables, ("  Создана таблица: " +:+ table) :: out)
  end.

(** [_ensure_tables] (lines 277-297). *)
Definition _ensure_tables (existing_tables : gset string)
  : gset string * list string :=
  ensure_tables_loop models_to_create existing_tables.

(** The rows of [create_test_data] (lines 338-354); a key left out takes
    the default of its field. *)
Definition test_customers : list Customer.t :=
  [Customer.mk "Иван" "Иванов" "ivan@test.com" "+79991234567" "";
   Customer.mk "Мария" "Петрова" "maria@test.com" "+79997654321" "";
   Customer.mk "Алексей" "Сидоров" "alex@test.com" "+79999876543" ""].

Definition test_products : list Product.t :=
  [Product.mk "Ноутбук HP" "Мощный ноутбук" "electronics" 5000000 10 "NB001"
     true;
   Product.mk "Смартфон Samsung" "Современный смартфон" "electronics" 3000000
     15 "PH001" true;
   Product.mk "Футболка" "Хлопковая футболка" "clothing" 150000 50 "TS001"
     true;
   Product.mk "Книга Python" "Учебник по Python" "books" 120000 20 "BK001"
     true;
   Product.mk "Кофе" "Арабика молотый" "food" 50000 100 "FD001" true].

(** One [for] loop of [create_test_data]: the handler call on each row in
    turn, every call in a transaction of its own. *)
Definition for_each {A B} (f : DB → A → B * DB * list string) (rows : list A)
    (start : DB * list string) : DB * list string :=
  foldl (λ acc row, let '(_, db, out) := f acc.1 row in (db, acc.2 ++ out))
    start rows.

(** [create_test_data] (lines 328-364).  [PostgreSQLHandler()] starts by
    [check_connection], whose lines are the server's: they are the
    [banner].  No call of the handler raises, so the [except] clause is
    never taken. *)
Definition create_test_data (banner : list string) (db : DB)
  : bool * DB * list string :=
  let start := (db, banner) in
  let after_customers := for_each create_customer test_customers start in
  let after_products := for_each create_product test_products after_customers in
  (true, after_products.1, after_products.2 ++ ["✅ Тестовые данные созданы"]).

(** Some customer has the [email]; some product has the [sku]. *)
Definition has_email (db : DB) (email : string) : Prop :=
  ∃ k c, customers db !! k = Some c ∧ Customer.email c = email.

Definition has_sku (db : DB) (sku : string) : Prop :=
  ∃ k p, products db !! k = Some p ∧ Product.sku p = sku.

(** * Proofs *)

(** Runs a monadic term down to its matches. *)
Ltac msimpl :=
  repeat (progress (unfold mbind, M_bind, mret, M_ret, raise, try_except,
                      get_store, put_store, print, set_rollback; cbn)).

(** ** Fresh keys, columns and strings *)

(** Every stored key lies below the next one. *)
Lemma fresh_pk_bound {A} (m : gmap Z A) k x :
  m !! k = Some x → k < fresh_pk m.
Proof.
  unfold fresh_pk. revert k x.
  apply (map_fold_weak_ind
    (λ b (m : gmap Z A), ∀ k x, m !! k = Some x → k < 1 + b)).
  - intros k x H. by rewrite lookup_empty in H.
  - intros i y m' r Hi IH k x Hk.
    destruct (decide (i = k)) as [->|Hne].
    + lia.
    + rewrite lookup_insert_ne in Hk by done. specialize (IH _ _ Hk). lia.
Qed.

Lemma fresh_pk_lookup {A} (m : gmap Z A) : m !! fresh_pk m = None.
Proof.
  destruct (m !! fresh_pk m) eqn:E; [|done].
  apply fresh_pk_bound in E. lia.
Qed.

Lemma decimal_fits_true d v : decimal_fits d v = true ↔ Z.abs v < 10 ^ d.
Proof. unfold decimal_fits. apply Z.ltb_lt. Qed.

Lemma STATUS_CHOICES_fit s : s ∈ Order.STATUS_CHOICES → char_fits 20 s = true.
Proof.
  unfold Order.STATUS_CHOICES. rewrite !elem_of_cons, elem_of_nil.
  intros [->|[->|[->|[->|[->|[]]]]]]; reflexivity.
Qed.

(** The scan of [OrderItem_insert], as membership of the pair. *)
Lemma same_pair_existsb_false row rows :
  existsb (OrderItem.same_pair row) rows = false ↔
  (OrderItem.order row, OrderItem.product row)
    ∉ (λ r, (OrderItem.order r, OrderItem.product r)) <$> rows.
Proof.
  induction rows as [|r rows IH]; cbn.
  - split; [intros _|done]. apply not_elem_of_nil.
  - rewrite orb_false_iff, IH, not_elem_of_cons.
    unfold OrderItem.same_pair.
    rewrite andb_false_iff, !bool_decide_eq_false.
    split; intros [H1 H2]; (split; [|done]).
    + intros [= ??]. tauto.
    + destruct (decide (OrderItem.order row = OrderItem.order r)); [|tauto].
      right. congruence.
Qed.


Lemma append_assoc (a b c : string) : (a +:+ b) +:+ c = a +:+ b +:+ c.
Proof.
  induction a as [|x a IH]; [done|].
  change (String x ((a +:+ b) +:+ c) = String x (a +:+ b +:+ c)).
  by rewrite IH.
Qed.

Lemma append_empty_r (a : string) : a +:+ "" = a.
Proof.
  induction a as [|x a IH]; [done|].
  change (String x (a +:+ "") = String x a). by rewrite IH.
Qed.

(** The three values the f-string of line 165 interpolates. *)
Lemma insufficient_stock_message_includes product item :
  includes (Product.name (fields product))
    (insufficient_stock_message product item)
  ∧ includes (pretty (Product.quantity (fields product)))
      (insufficient_stock_message product item)
  ∧ includes (pretty (Item.quantity item))
      (insufficient_stock_message product item).
Proof.
  unfold insufficient_stock_message, includes. split; [|split].
  - by eexists _, _.
  - exists ("Недостаточно товара: " +:+ Product.name (fields product)
            +:+ ". На складе: "), (", требуется: " +:+ pretty (Item.quantity item)).
    by rewrite !append_assoc.
  - exists ("Недостаточно товара: " +:+ Product.name (fields product)
            +:+ ". На складе: " +:+ pretty (Product.quantity (fields product))
            +:+ ", требуется: "), "".
    by rewrite append_empty_r, !append_assoc.
Qed.

(** Lines answer a request at any prices that agree on its products. *)
Lemma line_of_request_agree m m' order_id items rows :
  Forall2 (line_of_request m' order_id) items rows →
  (∀ it, it ∈ items → m' !! Item.product_id it = m !! Item.product_id it) →
  Forall2 (line_of_request m order_id) items rows.
Proof.
  induction 1 as [|it r items rows Hr _ IH]; intros Hm; constructor.
  - destruct Hr as (?&?&?&p&Hp&?). repeat split; try done.
    exists p. rewrite <- Hm by left. done.
  - apply IH. intros it' Hin. apply Hm. by right.
Qed.

(** ** The loop of [create_order] *)

Section Loop.

(** The order the lines are created for. *)
Context (order : instance Order.t).

(** What one line does: the four ways it can fail, in the order the code
    meets them, or the tables it hands to the next line. *)
Lemma create_order_loop_cons item rest total tx :
  create_order_loop order (item :: rest) total tx =
  match products (store tx) !! Item.product_id item with
  | None => (Raise (ObjectDoesNotExist "Product"), tx)
  | Some row =>
      if Product.quantity row <? Item.quantity item then
        (Raise (ValueError (insufficient_stock_message
                  (mk_instance (Item.product_id item) row) item)), tx)
      else if negb (decimal_fits 10 (Product.price row)
                    && decimal_fits 10 (Product.price row * Item.quantity item))
      then (Raise (DataError "numeric field overflow"), tx)
      else if existsb
                (OrderItem.same_pair
                   (new_line order (Item.product_id item) row
                      (Item.quantity item) (store tx)))
                (order_items (store tx))
      then (Raise (IntegrityError
        "duplicate key value violates unique constraint on (order_id, product_id)"),
            tx)
      else create_order_loop order rest
             (total + Product.price row * Item.quantity item)
             (mkTx (after_line order item row (store tx)) (stdout tx)
                (needs_rollback tx))
  end.
Proof.
  destruct tx as [db out flag]. cbn [create_order_loop].
  unfold Product_objects_get. msimpl.
  destruct (products db !! Item.product_id item) as [row|] eqn:Hrow; [|done].
  msimpl.
  destruct (Product.quantity row <? Item.quantity item); [done|].
  unfold OrderItem_objects_create, OrderItem_save, OrderItem_super_save.
  msimpl.
  destruct (decimal_fits 10 (Product.price row)
            && decimal_fits 10 (Product.price row * Item.quantity item));
    [|done].
  unfold OrderItem_insert. msimpl. unfold new_line. cbn.
  destruct (existsb _ _); [done|].
  unfold Product_save, float. msimpl. reflexivity.
Qed.


(** An invariant of the transaction that every accepted line keeps is kept
    by the whole loop, however it ends. *)
Lemma create_order_loop_ind (P : Tx → Prop) :
  (∀ tx item row,
     P tx →
     products (store tx) !! Item.product_id item = Some row →
     Item.quantity item <= Product.quantity row →
     existsb (OrderItem.same_pair
                (new_line order (Item.product_id item) row
                   (Item.quantity item) (store tx)))
       (order_items (store tx)) = false →
     P (mkTx (after_line order item row (store tx)) (stdout tx)
          (needs_rollback tx))) →
  ∀ items total tx r tx',
    create_order_loop order items total tx = (r, tx') → P tx → P tx'.
Proof.
  intros Hstep items. induction items as [|item rest IH];
    intros total tx r tx' Hrun HP.
  - cbn in Hrun. by injection Hrun as _ <-.
  - rewrite create_order_loop_cons in Hrun.
    destruct (products (store tx) !! Item.product_id item) as [row|] eqn:Hrow;
      [|by injection Hrun as _ <-].
    destruct (Product.quantity row <? Item.quantity item) eqn:Hq;
      [by injection Hrun as _ <-|].
    destruct (negb _); [by injection Hrun as _ <-|].
    destruct (existsb _ _) eqn:Hdup; [by injection Hrun as _ <-|].
    apply Z.ltb_ge in Hq.
    eapply IH; [exact Hrun|]. by apply Hstep.
Qed.

(** It writes neither customers nor orders, prints nothing and leaves the
    rollback flag alone. *)
Lemma create_order_loop_frame items total tx r tx' :
  create_order_loop order items total tx = (r, tx') →
  customers (store tx') = customers (store tx)
  ∧ orders (store tx') = orders (store tx)
  ∧ stdout tx' = stdout tx
  ∧ needs_rollback tx' = needs_rollback tx.
Proof.
  intros Hrun.
  apply (create_order_loop_ind
    (λ t, customers (store t) = customers (store tx)
          ∧ orders (store t) = orders (store tx)
          ∧ stdout t = stdout tx
          ∧ needs_rollback t = needs_rollback tx)) in Hrun; [done| |done].
  intros t item row (?&?&?&?) _ _ _. done.
Qed.





(** The loop goes through when every line names a stored product, asks no
    more than its stock, prices within the columns, and no product twice. *)
Lemma create_order_loop_Ok items : ∀ total tx,
  NoDup (Item.product_id <$> items) →
  (∀ it, it ∈ items →
     ∃ row, products (store tx) !! Item.product_id it = Some row
            ∧ Item.quantity it <= Product.quantity row
            ∧ Z.abs (Product.price row) < 10 ^ 10
            ∧ Z.abs (Product.price row * Item.quantity it) < 10 ^ 10) →
  (∀ r, r ∈ order_items (store tx) → OrderItem.order r = pk order →
        OrderItem.product r ∉ Item.product_id <$> items) →
  ∃ rows tx',
    create_order_loop order items total tx
    = (Ok (total
           + sum_Z ((λ r, OrderItem.unit_price r * OrderItem.quantity r)
                      <$> rows)), tx')
    ∧ order_items (store tx') = order_items (store tx) ++ rows
    ∧ Forall2 (line_of_request (products (store tx)) (pk order)) items rows
    ∧ (∀ it row, it ∈ items →
         products (store tx) !! Item.product_id it = Some row →
         products (store tx') !! Item.product_id it
         = Some (Product.with_quantity row
                   (Product.quantity row - Item.quantity it)))
    ∧ (∀ k, k ∉ Item.product_id <$> items →
         products (store tx') !! k = products (store tx) !! k).
Proof.
  induction items as [|item rest IH]; intros total tx Hnd Hlines Hfresh.
  - exists [], tx. cbn. rewrite Z.add_0_r, app_nil_r.
    repeat split; try done. intros it row Hin. by apply elem_of_nil in Hin.
  - rewrite fmap_cons in Hnd. apply NoDup_cons in Hnd as [Hhead Hnd].
    destruct (Hlines item) as (row & Hrow & Hq & Hp & Hpq); [by left|].
    rewrite create_order_loop_cons, Hrow.
    apply Z.ltb_ge in Hq as Hq'. rewrite Hq'.
    apply decimal_fits_true in Hp, Hpq. rewrite Hp, Hpq. cbn [andb negb].
    assert (existsb (OrderItem.same_pair
              (new_line order (Item.product_id item) row (Item.quantity item)
                 (store tx))) (order_items (store tx)) = false) as Hdup.
    { apply same_pair_existsb_false. cbn. intros Hin.
      apply list_elem_of_fmap in Hin as (r & [= Ho Hpr] & Hr).
      apply (Hfresh r Hr); [done|]. rewrite <- Hpr. by left. }
    rewrite Hdup.
    set (tx1 := mkTx (after_line order item row (store tx)) (stdout tx)
                  (needs_rollback tx)).
    destruct (IH (total + Product.price row * Item.quantity item) tx1 Hnd)
      as (rows & tx' & Hrun & Hitems & Hrows & Hstock & Hother).
    { intros it Hin. destruct (Hlines it) as (row' & Hrow' & ?); [by right|].
      exists row'. split; [|done]. cbn.
      rewrite lookup_insert_ne; [done|]. intros Heq. apply Hhead.
      rewrite Heq. by apply list_elem_of_fmap_2. }
    { intros r. cbn. rewrite elem_of_app, list_elem_of_singleton.
      intros [Hr| ->] Ho.
      - intros Hin. apply (Hfresh r Hr Ho). by right.
      - cbn. done. }
    exists (new_line order (Item.product_id item) row (Item.quantity item)
              (store tx) :: rows), tx'.
    split; [|split; [|split; [|split]]].
    + rewrite Hrun. cbn. do 2 f_equal. unfold sum_Z. lia.
    + rewrite Hitems. cbn. by rewrite <- app_assoc.
    + constructor.
      * repeat split; try done. exists row. done.
      * eapply line_of_request_agree; [exact Hrows|].
        intros it Hin. cbn. rewrite lookup_insert_ne; [done|].
        intros Heq. apply Hhead. rewrite Heq. by apply list_elem_of_fmap_2.
    + intros it row' Hin Hrow'. apply elem_of_cons in Hin as [->|Hin].
      * rewrite Hother by done. cbn. rewrite lookup_insert_eq. congruence.
      * apply Hstock; [done|]. cbn. rewrite lookup_insert_ne; [done|].
        intros Heq. apply Hhead. rewrite Heq. by apply list_elem_of_fmap_2.
    + intros k Hk. rewrite fmap_cons in Hk. apply not_elem_of_cons in Hk as [? ?].
      rewrite Hother by done. cbn. by rewrite lookup_insert_ne.
Qed.

(** Conversely, a loop that went through had every line within the stock
    the product had at the start, and no product twice. *)
Lemma create_order_loop_Ok_inv items : ∀ total tx t tx',
  create_order_loop order items total tx = (Ok t, tx') →
  NoDup (Item.product_id <$> items)
  ∧ ∀ it, it ∈ items →
      (∃ row, products (store tx) !! Item.product_id it = Some row
              ∧ Item.quantity it <= Product.quantity row)
      ∧ (pk order, Item.product_id it)
          ∉ (λ r, (OrderItem.order r, OrderItem.product r))
              <$> order_items (store tx).
Proof.
  induction items as [|item rest IH]; intros total tx t tx' Hrun.
  - split; [constructor|]. intros it Hin. by apply elem_of_nil in Hin.
  - rewrite create_order_loop_cons in Hrun.
    destruct (products (store tx) !! Item.product_id item) as [row|] eqn:Hrow;
      [|done].
    destruct (Product.quantity row <? Item.quantity item) eqn:Hq; [done|].
    destruct (negb _); [done|].
    destruct (existsb _ _) eqn:Hdup; [done|].
    apply Z.ltb_ge in Hq. apply same_pair_existsb_false in Hdup. cbn in Hdup.
    apply IH in Hrun as [Hnd Hrest]. cbn in Hrest.
    assert (∀ it, it ∈ rest → Item.product_id it ≠ Item.product_id item)
      as Hne.
    { intros it Hin Heq. destruct (Hrest it Hin) as [_ Hnew].
      apply Hnew. rewrite fmap_app, elem_of_app. right. cbn.
      rewrite list_elem_of_singleton. by rewrite Heq. }
    split.
    + rewrite fmap_cons. apply NoDup_cons. split; [|done].
      intros Hin. apply list_elem_of_fmap in Hin as (it & Heq & Hin).
      by apply (Hne it Hin).
    + intros it Hin. apply elem_of_cons in Hin as [->|Hin].
      * split; [by exists row|done].
      * destruct (Hrest it Hin) as [(row' & Hrow' & Hq') Hnew]. split.
        -- exists row'. split; [|done].
           rewrite lookup_insert_ne in Hrow'; [done|].
           intros Heq. by apply (Hne it Hin).
        -- intros Hold. apply Hnew. rewrite fmap_app, elem_of_app. by left.
Qed.

(** The stock check (lines 164-165): a line asking more than the
    transaction holds of its product stops the loop with the message. *)
Lemma create_order_loop_stock_check item rest total tx row :
  products (store tx) !! Item.product_id item = Some row →
  Product.quantity row < Item.quantity item →
  create_order_loop order (item :: rest) total tx
  = (Raise (ValueError
       (insufficient_stock_message (mk_instance (Item.product_id item) row)
          item)), tx).
Proof.
  intros Hrow Hq. rewrite create_order_loop_cons, Hrow.
  apply Z.ltb_lt in Hq. by rewrite Hq.
Qed.

(** A [ValueError] out of the loop is the one of the stock check, raised
    on what the transaction then holds. *)
Lemma create_order_loop_ValueError items : ∀ total tx msg tx',
  create_order_loop order items total tx = (Raise (ValueError msg), tx') →
  ∃ it row, it ∈ items
    ∧ products (store tx') !! Item.product_id it = Some row
    ∧ Product.quantity row < Item.quantity it
    ∧ msg = insufficient_stock_message
              (mk_instance (Item.product_id it) row) it.
Proof.
  induction items as [|item rest IH]; intros total tx msg tx' Hrun; [done|].
  rewrite create_order_loop_cons in Hrun.
  destruct (products (store tx) !! Item.product_id item) as [row|] eqn:Hrow;
    [|done].
  destruct (Product.quantity row <? Item.quantity item) eqn:Hq.
  - injection Hrun as <- <-. exists item, row. apply Z.ltb_lt in Hq.
    repeat split; try done. by left.
  - destruct (negb _); [done|]. destruct (existsb _ _); [done|].
    apply IH in Hrun as (it & row' & Hin & ?). exists it, row'.
    split; [by right|done].
Qed.

End Loop.

(** ** The [try] block and the transaction around it *)

(** The [try] block, read off the same way. *)
Lemma create_order_try_eq customer_id items notes tx :
  create_order_try customer_id items notes tx =
  match customers (store tx) !! customer_id with
  | None => (Raise (ObjectDoesNotExist "Customer"), tx)
  | Some _ =>
      let order := pending_order customer_id notes (store tx) in
      match create_order_loop order items 0
              (mkTx (with_order order (store tx)) (stdout tx)
                 (needs_rollback tx)) with
      | (Raise e, tx2) => (Raise e, tx2)
      | (Ok total, tx2) =>
          if decimal_fits 12 total then
            (Ok (Some (Order.set_total_amount order total)),
             mkTx (with_order (Order.set_total_amount order total) (store tx2))
               (stdout tx2
                  ++ ["✅ Заказ создан: #" +:+ pretty (pk order)])
               (needs_rollback tx2))
          else (Raise (DataError "numeric field overflow"), tx2)
      end
  end.
Proof.
  destruct tx as [db out flag].
  unfold create_order_try, Customer_objects_get. msimpl.
  destruct (customers db !! customer_id) as [c|]; [|done].
  unfold Order_objects_create, Order_save. msimpl.
  change (char_fits 20 "pending") with true.
  change (decimal_fits 12 0) with true. msimpl.
  unfold pending_order, with_order. cbn.
  destruct (create_order_loop _ items 0 _) as [[total|e] tx2]; [|done].
  msimpl. change (char_fits 20 "pending") with true. cbn.
  destruct (decimal_fits 12 total); done.
Qed.

(** What [create_order] makes of the two outcomes of its [try] block. *)
Lemma create_order_unfold db customer_id items notes :
  create_order db customer_id items notes =
  match create_order_try customer_id items notes (mkTx db [] false) with
  | (Ok r, tx) =>
      (Ok r, if needs_rollback tx then db else store tx, stdout tx)
  | (Raise e, tx) =>
      (Ok None, db,
       (stdout tx
          ++ [(if is_expected e then "❌ Ошибка при создании заказа: "
               else "❌ Неожиданная ошибка при создании заказа: ")
              +:+ exn_str e])%list)
  end.
Proof.
  unfold create_order, atomic, try_except.
  destruct (create_order_try _ _ _ _) as [[r|e] tx]; [done|].
  unfold create_order_except. destruct (is_expected e); msimpl; done.
Qed.

(** The [try] block prints only on success, never touches the flag and
    writes no customer. *)
Lemma create_order_try_frame customer_id items notes db r tx :
  create_order_try customer_id items notes (mkTx db [] false) = (r, tx) →
  needs_rollback tx = false
  ∧ customers (store tx) = customers db
  ∧ match r with Raise _ => stdout tx = [] | Ok _ => True end.
Proof.
  rewrite create_order_try_eq. cbn [store stdout needs_rollback].
  destruct (customers db !! customer_id); [|by intros [= <- <-]].
  cbv zeta.
  destruct (create_order_loop _ _ _ _) as [[total|e] tx2] eqn:Hloop;
    apply create_order_loop_frame in Hloop as (Hc & _ & Hout & Hflag);
    cbn in Hc, Hout, Hflag.
  - destruct (decimal_fits 12 total); intros [= <- <-]; done.
  - intros [= <- <-]. done.
Qed.

(** An exception is printed once, the flag goes up and the tables are
    restored. *)
Lemma create_order_failed db customer_id items notes e tx :
  create_order_try customer_id items notes (mkTx db [] false) = (Raise e, tx) →
  create_order db customer_id items notes
  = (Ok None, db,
     [(if is_expected e then "❌ Ошибка при создании заказа: "
       else "❌ Неожиданная ошибка при создании заказа: ") +:+ exn_str e]).
Proof.
  intros Htry. rewrite create_order_unfold, Htry.
  apply create_order_try_frame in Htry as (_ & _ & ->). done.
Qed.

(** A normal end commits. *)
Lemma create_order_done db customer_id items notes r tx :
  create_order_try customer_id items notes (mkTx db [] false) = (Ok r, tx) →
  create_order db customer_id items notes = (Ok r, store tx, stdout tx).
Proof.
  intros Htry. rewrite create_order_unfold, Htry.
  apply create_order_try_frame in Htry as (-> & _). done.
Qed.

(** The [try] block never returns [None]. *)
Lemma create_order_try_Some customer_id items notes tx r tx' :
  create_order_try customer_id items notes tx = (Ok r, tx') → is_Some r.
Proof.
  rewrite create_order_try_eq.
  destruct (customers (store tx) !! customer_id); [|done]. cbv zeta.
  destruct (create_order_loop _ _ _ _) as [[total|e] tx2]; [|done].
  destruct (decimal_fits 12 total); [|done]. intros [= <- _]. by eexists.
Qed.

(** Every run of [create_order] is one of the two: nothing returned and the
    tables as they were, or an order returned and the tables of the [try]
    block. *)
Lemma create_order_cases db customer_id items notes :
  (∃ e tx,
     create_order_try customer_id items notes (mkTx db [] false)
     = (Raise e, tx)
     ∧ ∃ out, create_order db customer_id items notes = (Ok None, db, out))
  ∨ (∃ order tx,
       create_order_try customer_id items notes (mkTx db [] false)
       = (Ok (Some order), tx)
       ∧ create_order db customer_id items notes
         = (Ok (Some order), store tx, stdout tx)).
Proof.
  destruct (create_order_try customer_id items notes (mkTx db [] false))
    as [[r|e] tx] eqn:Htry.
  - right. destruct (create_order_try_Some _ _ _ _ _ _ Htry) as [order ->].
    exists order, tx. split; [done|]. by eapply create_order_done.
  - left. exists e, tx. split; [done|]. eexists. by eapply create_order_failed.
Qed.

(** A successful [try] block went through the loop. *)
Lemma create_order_try_Ok_inv customer_id items notes db order tx :
  create_order_try customer_id items notes (mkTx db [] false)
  = (Ok (Some order), tx) →
  is_Some (customers db !! customer_id)
  ∧ ∃ total tx2,
      create_order_loop (pending_order customer_id notes db) items 0
        (mkTx (with_order (pending_order customer_id notes db) db) [] false)
      = (Ok total, tx2)
      ∧ decimal_fits 12 total = true
      ∧ order = Order.set_total_amount (pending_order customer_id notes db) total
      ∧ store tx = with_order order (store tx2).
Proof.
  rewrite create_order_try_eq. cbn [store stdout needs_rollback].
  destruct (customers db !! customer_id); [|done]. cbv zeta.
  destruct (create_order_loop _ _ _ _) as [[total|e] tx2] eqn:Hloop; [|done].
  destruct (decimal_fits 12 total) eqn:Hfit; [|done].
  intros [= <- <-]. split; [done|]. exists total, tx2. done.
Qed.

(** An order is returned only for a known customer and a request of
    distinct stored products, each asked within its stock. *)
Lemma create_order_Some_inv db customer_id items notes order db' out :
  create_order db customer_id items notes = (Ok (Some order), db', out) →
  NoDup (Item.product_id <$> items)
  ∧ is_Some (customers db !! customer_id)
  ∧ ∀ it, it ∈ items →
      ∃ row, products db !! Item.product_id it = Some row
             ∧ Item.quantity it <= Product.quantity row.
Proof.
  intros Hrun.
  destruct (create_order_cases db customer_id items notes)
    as [(e & tx & _ & out' & Hfail)|(order' & tx & Htry & _)];
    [by rewrite Hfail in Hrun|].
  apply create_order_try_Ok_inv in Htry as (Hc & total & tx2 & Hloop & _).
  apply create_order_loop_Ok_inv in Hloop as [Hnd Hlines].
  split; [done|]. split; [done|].
  intros it Hin. by destruct (Hlines it Hin) as [? _].
Qed.

(** [None] always comes with the tables as they were. *)
Lemma create_order_None_or_Some db customer_id items notes :
  (∃ out, create_order db customer_id items notes = (Ok None, db, out))
  ∨ (∃ order db' out,
       create_order db customer_id items notes = (Ok (Some order), db', out)).
Proof.
  destruct (create_order_cases db customer_id items notes)
    as [(e & tx & _ & out & Hfail)|(order & tx & _ & Hok)].
  - left. by exists out.
  - right. by exists order, (store tx), (stdout tx).
Qed.

(** The tables [create_order] leaves: those it found, or those of a [try]
    block that went through the loop. *)
Lemma create_order_tables db customer_id items notes :
  (create_order db customer_id items notes).1.2 = db
  ∨ ∃ total tx2,
      create_order_loop (pending_order customer_id notes db) items 0
        (mkTx (with_order (pending_order customer_id notes db) db) [] false)
      = (Ok total, tx2)
      ∧ decimal_fits 12 total = true
      ∧ (create_order db customer_id items notes).1.2
        = with_order
            (Order.set_total_amount (pending_order customer_id notes db) total)
            (store tx2).
Proof.
  destruct (create_order_cases db customer_id items notes)
    as [(e & tx & _ & out & ->)|(order & tx & Htry & ->)]; [by left|].
  right. apply create_order_try_Ok_inv in Htry
    as (_ & total & tx2 & Hloop & Hfit & -> & ->).
  by exists total, tx2.
Qed.

(** ** The other calls *)

(** [update_order_status], outcome by outcome. *)
Lemma update_order_status_unfold db order_id new_status :
  update_order_status db order_id new_status =
  match orders db !! order_id with
  | None =>
      (Ok false, db, ["❌ Заказ с ID " +:+ pretty order_id +:+ " не найден"])
  | Some row =>
      if negb (char_fits 20 new_status) then
        (Ok false, db,
         ["❌ Неожиданная ошибка при обновлении статуса: "
          +:+ "value too long for type character varying(20)"])
      else if negb (decimal_fits 12 (Order.total_amount row)) then
        (Ok false, db,
         ["❌ Неожиданная ошибка при обновлении статуса: "
          +:+ "numeric field overflow"])
      else
        (Ok true,
         set_orders db
           (<[order_id := Order.with_status row new_status]> (orders db)),
         ["✅ Статус заказа #" +:+ pretty order_id +:+ " обновлен на '"
          +:+ new_status +:+ "'"])
  end.
Proof.
  unfold update_order_status, atomic, update_order_status_try,
    update_order_status_except, Order_objects_get, Order_save.
  msimpl. destruct (orders db !! order_id) as [row|]; [|done].
  msimpl. destruct (char_fits 20 new_status); [|done].
  msimpl. destruct (decimal_fits 12 (Order.total_amount row)); done.
Qed.

(** The tables each of the other calls can leave. *)
Lemma update_order_status_tables db order_id new_status :
  (update_order_status db order_id new_status).1.2 = db
  ∨ ∃ row, orders db !! order_id = Some row
      ∧ decimal_fits 12 (Order.total_amount row) = true
      ∧ (update_order_status db order_id new_status).1.2
        = set_orders db
            (<[order_id := Order.with_status row new_status]> (orders db)).
Proof.
  rewrite update_order_status_unfold.
  destruct (orders db !! order_id) as [row|]; [|by left].
  destruct (char_fits 20 new_status); [|by left]. cbn [negb].
  destruct (decimal_fits 12 (Order.total_amount row)) eqn:Hfit; [|by left].
  right. by exists row.
Qed.

Lemma create_product_tables db kwargs :
  (create_product db kwargs).1.2 = db
  ∨ (create_product db kwargs).1.2
    = set_products db (<[fresh_pk (products db) := kwargs]> (products db)).
Proof.
  unfold create_product, atomic, create_product_except, Product_objects_create.
  msimpl. destruct (negb _); [by left|].
  destruct (existsb _ _); [by left|]. by right.
Qed.

Lemma create_customer_tables db kwargs :
  (create_customer db kwargs).1.2 = db
  ∨ (create_customer db kwargs).1.2
    = set_customers db (<[fresh_pk (customers db) := kwargs]> (customers db)).
Proof.
  unfold create_customer, atomic, create_customer_except,
    Customer_objects_create.
  msimpl. destruct (negb _); [by left|].
  destruct (existsb _ _); [by left|]. by right.
Qed.



(** ** Invariants across calls *)





(** ** The lines of a new order *)

(** The lines that answer a request add up to its amount. *)
Lemma sum_lines_request_total m order_id items rows :
  Forall2 (line_of_request m order_id) items rows →
  sum_Z ((λ r, OrderItem.unit_price r * OrderItem.quantity r) <$> rows)
  = request_total m items.
Proof.
  unfold request_total.
  induction 1 as [|it r items rows (_ & _ & Hq & p & Hp & Hu & _) _ IH];
    [done|].
  assert (line_amount m it = OrderItem.unit_price r * OrderItem.quantity r)
    as Hline by (unfold line_amount; by rewrite Hp, Hu, Hq).
  rewrite !fmap_cons. unfold sum_Z in *. cbn [foldr]. by rewrite IH, Hline.
Qed.

(** No stored line refers to the key the next order gets. *)
Lemma lines_of_fresh_order db :
  schema_ok db →
  filter (λ r, OrderItem.order r = fresh_pk (orders db)) (order_items db) = [].
Proof.
  intros [Hfk _]. induction (order_items db) as [|r rows IH]; [done|].
  rewrite filter_cons. destruct (decide _) as [Heq|_].
  - destruct (Hfk r) as [o Ho]; [by left|].
    by rewrite Heq, fresh_pk_lookup in Ho.
  - apply IH. intros l Hl. apply Hfk. by right.
Qed.


(** ** The sample states *)

Lemma shop_schema_ok : schema_ok shop.
Proof.
  split.
  - intros r Hr. by apply elem_of_nil in Hr.
  - intros oid o Ho. cbn in Ho. by rewrite lookup_empty in Ho.
Qed.



(** * The properties of the specification *)

(** ** Placing an order *)




(** C6.  For an existing customer and the empty request, [create_order]
    returns a pending order of total 0, stored under a fresh key, creates
    no line (the order has none) and changes no product. *)
Theorem create_order_empty db customer_id notes :
  is_Some (customers db !! customer_id) →
  let order := pending_order customer_id notes db in
  create_order db customer_id [] notes
  = (Ok (Some order), with_order order db,
     ["✅ Заказ создан: #" +:+ pretty (pk order)])
  ∧ Order.total_amount (fields order) = 0
  ∧ orders (with_order order db) !! pk order = Some (fields order)
  ∧ order_items (with_order order db) = order_items db
  ∧ products (with_order order db) = products db
  ∧ (schema_ok db → lines_of (with_order order db) (pk order) = []).
Proof.
  intros [c Hc] order. split; [|split; [|split; [|split; [|split]]]]; try done.
  - assert (create_order_try customer_id [] notes (mkTx db [] false)
            = (Ok (Some order),
               mkTx (with_order order db)
                 ["✅ Заказ создан: #" +:+ pretty (pk order)] false))
      as Htry.
    { rewrite create_order_try_eq. cbn [store stdout needs_rollback].
      rewrite Hc. cbn [create_order_loop mret M_ret].
      change (decimal_fits 12 0) with true. cbv iota.
      unfold with_order, set_orders, Order.set_total_amount, pending_order.
      subst order. unfold pending_order. cbn. by rewrite insert_insert_eq. }
    by apply create_order_done in Htry.
  - cbn. by rewrite lookup_insert_eq.
  - intros Hschema. exact (lines_of_fresh_order db Hschema).
Qed.

(** The empty order of the first customer of [shop]. *)
Lemma create_order_empty_witness :
  create_order shop 1 [] ""
  = (Ok (Some (mk_instance 1 (Order.mk 1 "pending" 0 ""))),
     mkDB {[1 := ivanov]} (<[2 := smartphone]> {[1 := notebook]})
       {[1 := Order.mk 1 "pending" 0 ""]} [],
     ["✅ Заказ создан: #1"])
  ∧ lines_of (create_order shop 1 [] "").1.2 1 = [].
Proof.
  destruct (create_order_empty shop 1 "") as (Hrun & _ & _ & _ & _ & Hlines).
  { by exists ivanov. }
  split.
  - rewrite Hrun. vm_compute. reflexivity.
  - rewrite Hrun. exact (Hlines shop_schema_ok).
Defined.

(** ** Failing without a trace *)

(** C2.  A request with a line asking more than the stock its product has
    fails; every exception of the [try] block, whatever its class, ends in
    [None]; and whenever [create_order] returns [None] the four tables are
    those it found: no order row, no line row, no stock change, also for
    the lines accepted before the failing one. *)
Theorem create_order_failure_discards db customer_id items notes :
  ((∃ it row, it ∈ items
      ∧ products db !! Item.product_id it = Some row
      ∧ Product.quantity row < Item.quantity it) →
   (create_order db customer_id items notes).1.1 = Ok None)
  ∧ (∀ e tx,
       create_order_try customer_id items notes (mkTx db [] false)
       = (Raise e, tx) →
       (create_order db customer_id items notes).1.1 = Ok None)
  ∧ ((create_order db customer_id items notes).1.1 = Ok None →
     (create_order db customer_id items notes).1.2 = db).
Proof.
  split; [|split].
  - intros (it & row & Hin & Hrow & Hq).
    destruct (create_order_None_or_Some db customer_id items notes)
      as [(out & ->)|(order & db' & out & Hok)]; [done|].
    apply create_order_Some_inv in Hok as (_ & _ & Hlines).
    destruct (Hlines it Hin) as (row' & Hrow' & Hq').
    rewrite Hrow in Hrow'. injection Hrow' as <-. lia.
  - intros e tx Htry. by rewrite (create_order_failed _ _ _ _ _ _ Htry).
  - destruct (create_order_None_or_Some db customer_id items notes)
      as [(out & ->)|(order & db' & out & ->)]; done.
Qed.

(** The second line asks 30 smartphones of 15: inside the transaction the
    notebooks were already down to 8, afterwards the tables are [shop]. *)
Lemma create_order_failure_discards_witness :
  (∃ e tx,
     create_order_try 1 [Item.mk 1 2; Item.mk 2 30] "" (mkTx shop [] false)
     = (Raise e, tx)
     ∧ Product.quantity <$> products (store tx) !! 1 = Some 8)
  ∧ (create_order shop 1 [Item.mk 1 2; Item.mk 2 30] "").1.1 = Ok None
  ∧ (create_order shop 1 [Item.mk 1 2; Item.mk 2 30] "").1.2 = shop.
Proof.
  split; [eexists _, _; split; vm_compute; reflexivity|].
  destruct (create_order_failure_discards shop 1 [Item.mk 1 2; Item.mk 2 30] "")
    as (Hfails & _ & Hkept).
  assert ((create_order shop 1 [Item.mk 1 2; Item.mk 2 30] "").1.1 = Ok None)
    as Hnone.
  { apply Hfails. exists (Item.mk 2 30), smartphone.
    split; [apply elem_of_cons; right; by left|].
    split; [reflexivity|]. cbn. lia. }
  split; [exact Hnone|exact (Hkept Hnone)].
Defined.






(** C7.  When the [try] block of [create_order] ends on the [ValueError]
    of the stock check, [create_order] prints that message after its
    prefix and returns [None]; the message comes from a requested line
    whose product had less in stock than asked, and includes the name of
    that product, the quantity available and the quantity requested. *)
Theorem insufficient_stock_reported db customer_id items notes msg tx :
  create_order_try customer_id items notes (mkTx db [] false)
  = (Raise (ValueError msg), tx) →
  create_order db customer_id items notes
  = (Ok None, db, ["❌ Ошибка при создании заказа: " +:+ msg])
  ∧ ∃ it row, it ∈ items
      ∧ products (store tx) !! Item.product_id it = Some row
      ∧ Product.quantity row < Item.quantity it
      ∧ includes (Product.name row) msg
      ∧ includes (pretty (Product.quantity row)) msg
      ∧ includes (pretty (Item.quantity it)) msg.
Proof.
  intros Htry. split; [by apply create_order_failed in Htry|].
  rewrite create_order_try_eq in Htry. cbn [store stdout needs_rollback] in Htry.
  destruct (customers db !! customer_id); [|done]. cbv zeta in Htry.
  destruct (create_order_loop _ _ _ _) as [[total|e] tx2] eqn:Hloop.
  - by destruct (decimal_fits 12 total).
  - injection Htry as -> ->.
    apply create_order_loop_ValueError in Hloop
      as (it & row & Hin & Hrow & Hq & ->).
    exists it, row. repeat split; try done;
      apply (insufficient_stock_message_includes
               (mk_instance (Item.product_id it) row) it).
Qed.

(** 30 smartphones asked of 15. *)
Lemma insufficient_stock_reported_witness :
  create_order shop 1 [Item.mk 1 2; Item.mk 2 30] ""
  = (Ok None, shop,
     ["❌ Ошибка при создании заказа: Недостаточно товара: Смартфон Samsung. На складе: 15, требуется: 30"])
  ∧ includes "Смартфон Samsung"
      "Недостаточно товара: Смартфон Samsung. На складе: 15, требуется: 30"
  ∧ includes "15"
      "Недостаточно товара: Смартфон Samsung. На складе: 15, требуется: 30"
  ∧ includes "30"
      "Недостаточно товара: Смартфон Samsung. На складе: 15, требуется: 30".
Proof.
  destruct (insufficient_stock_reported shop 1 [Item.mk 1 2; Item.mk 2 30] ""
    "Недостаточно товара: Смартфон Samsung. На складе: 15, требуется: 30"
    (mkTx (after_line (pending_order 1 "" shop) (Item.mk 1 2) notebook
             (with_order (pending_order 1 "" shop) shop)) [] false))
    as (Hrun & it & row & Hin & Hrow & Hq & Hname & Havailable & Hrequested).
  { vm_compute. reflexivity. }
  split; [exact Hrun|].
  apply elem_of_cons in Hin as [->|Hin];
    [|apply list_elem_of_singleton in Hin as ->].
  - exfalso. vm_compute in Hrow. injection Hrow as <-. vm_compute in Hq.
    discriminate Hq.
  - vm_compute in Hrow. injection Hrow as <-.
    split; [exact Hname|]. split; [exact Havailable|exact Hrequested].
Defined.

(** ** Stock, status and line totals *)




(** Against C8 as stated: delivered to pending is no edge of the
    specification's state machine, and the update goes through. *)
Lemma update_order_status_accepts_any_edge :
  spec_transition "delivered" "pending" = false
  ∧ Order.status <$> orders delivered !! 1 = Some "delivered"
  ∧ update_order_status delivered 1 "pending"
    = (Ok true,
       mkDB {[1 := ivanov]} ∅ {[1 := Order.mk 1 "pending" 0 ""]} [],
       ["✅ Статус заказа #1 обновлен на 'pending'"]).
Proof. repeat split; vm_compute; reflexivity. Qed.

(** C8, as amended.  [update_order_status] checks no transition: for a
    stored order, whatever its status, and a requested status among
    [STATUS_CHOICES] (or any of at most 20 characters), it stores the
    requested status and returns [True]; when no order has the key it
    returns [False] and leaves the tables as they were. *)
Theorem update_order_status_unchecked db order_id new_status :
  (∀ row,
     orders db !! order_id = Some row →
     schema_ok db →
     new_status ∈ Order.STATUS_CHOICES ∨ char_length new_status <= 20 →
     update_order_status db order_id new_status
     = (Ok true,
        set_orders db
          (<[order_id := Order.with_status row new_status]> (orders db)),
        ["✅ Статус заказа #" +:+ pretty order_id +:+ " обновлен на '"
         +:+ new_status +:+ "'"]))
  ∧ (orders db !! order_id = None →
     update_order_status db order_id new_status
     = (Ok false, db,
        ["❌ Заказ с ID " +:+ pretty order_id +:+ " не найден"])).
Proof.
  rewrite update_order_status_unfold. split.
  - intros row Hrow [_ Hfit] Hs. rewrite Hrow.
    assert (char_fits 20 new_status = true) as ->.
    { destruct Hs as [Hs|Hs]; [by apply STATUS_CHOICES_fit|].
      by apply Z.leb_le. }
    by rewrite (Hfit order_id row Hrow).
  - by intros ->.
Qed.

(** The same update, and one on a key that is not stored. *)
Lemma update_order_status_unchecked_witness :
  update_order_status delivered 1 "pending"
  = (Ok true,
     set_orders delivered
       (<[1 := Order.with_status (Order.mk 1 "delivered" 0 "") "pending"]>
          (orders delivered)),
     ["✅ Статус заказа #" +:+ pretty 1 +:+ " обновлен на '" +:+ "pending"
      +:+ "'"])
  ∧ update_order_status delivered 2 "shipped"
    = (Ok false, delivered, ["❌ Заказ с ID " +:+ pretty 2 +:+ " не найден"]).
Proof.
  destruct (update_order_status_unchecked delivered 1 "pending")
    as [Hstored _].
  destruct (update_order_status_unchecked delivered 2 "shipped")
    as [_ Hmissing].
  split.
  - apply Hstored.
    + reflexivity.
    + split.
      * intros r Hr. by apply elem_of_nil in Hr.
      * intros oid o. cbn. rewrite lookup_singleton. case_decide; [|done].
        by intros [= <-].
    + left. unfold Order.STATUS_CHOICES. left.
  - apply Hmissing. reflexivity.
Defined.



(** Two orders of 3 against a stock of 5, one after the other: the second
    finds 2 and is refused. *)
Example create_order_twice_in_sequence :
  let stocked := mkDB {[1 := ivanov]}
                   {[1 := Product.with_quantity notebook 5]} ∅ [] in
  let first := create_order stocked 1 [Item.mk 1 3] "" in
  let second := create_order first.1.2 1 [Item.mk 1 3] "" in
  first.1.1 = Ok (Some (mk_instance 1 (Order.mk 1 "pending" 15000000 "")))
  ∧ second.1.1 = Ok None
  ∧ Product.quantity <$> products second.1.2 !! 1 = Some 2.
Proof. repeat split; vm_compute; reflexivity. Qed.

(** * Further properties of the handler *)

(** ** What a returned order means *)

(** A loop that went through met only prices and amounts within
    numeric(10,2). *)
Lemma create_order_loop_Ok_fits order items : ∀ total tx t tx',
  create_order_loop order items total tx = (Ok t, tx') →
  ∀ it, it ∈ items →
    ∃ row, products (store tx) !! Item.product_id it = Some row
           ∧ Z.abs (Product.price row) < 10 ^ 10
           ∧ Z.abs (Product.price row * Item.quantity it) < 10 ^ 10.
Proof.
  induction items as [|item rest IH]; intros total tx t tx' Hrun it Hin;
    [by apply elem_of_nil in Hin|].
  pose proof (create_order_loop_Ok_inv _ _ _ _ _ _ Hrun) as [Hnd _].
  rewrite fmap_cons in Hnd. apply NoDup_cons in Hnd as [Hhead _].
  rewrite create_order_loop_cons in Hrun.
  destruct (products (store tx) !! Item.product_id item) as [row|] eqn:Hrow;
    [|done].
  destruct (Product.quantity row <? Item.quantity item); [done|].
  destruct (decimal_fits 10 (Product.price row)) eqn:Hp; [|done].
  destruct (decimal_fits 10 (Product.price row * Item.quantity item)) eqn:Hpq;
    [|done].
  cbn [andb negb] in Hrun. destruct (existsb _ _); [done|].
  apply decimal_fits_true in Hp, Hpq.
  apply elem_of_cons in Hin as [->|Hin]; [by exists row|].
  destruct (IH _ _ _ _ Hrun it Hin) as (row' & Hrow' & Hfits).
  exists row'. split; [|done]. cbn in Hrow'.
  rewrite lookup_insert_ne in Hrow'; [done|].
  intros Heq. apply Hhead. rewrite Heq. by apply list_elem_of_fmap_2.
Qed.

(** The tables a loop that went through leaves, read off its input. *)
Lemma create_order_loop_Ok_effect order items total tx t tx' :
  create_order_loop order items total tx = (Ok t, tx') →
  ∃ rows,
    t = total
        + sum_Z ((λ r, OrderItem.unit_price r * OrderItem.quantity r) <$> rows)
    ∧ order_items (store tx') = order_items (store tx) ++ rows
    ∧ Forall2 (line_of_request (products (store tx)) (pk order)) items rows
    ∧ (∀ it row, it ∈ items →
         products (store tx) !! Item.product_id it = Some row →
         products (store tx') !! Item.product_id it
         = Some (Product.with_quantity row
                   (Product.quantity row - Item.quantity it)))
    ∧ (∀ k, k ∉ Item.product_id <$> items →
         products (store tx') !! k = products (store tx) !! k).
Proof.
  intros Hrun.
  pose proof (create_order_loop_Ok_inv _ _ _ _ _ _ Hrun) as [Hnd Hlines].
  pose proof (create_order_loop_Ok_fits _ _ _ _ _ _ Hrun) as Hfits.
  destruct (create_order_loop_Ok order items total tx Hnd)
    as (rows & tx'' & Hrun' & Hrest).
  - intros it Hin. destruct (Hlines it Hin) as [(row & Hrow & Hq) _].
    destruct (Hfits it Hin) as (row' & Hrow' & Hp & Hpq).
    rewrite Hrow in Hrow'. injection Hrow' as <-. by exists row.
  - intros r Hr Ho Hin. apply list_elem_of_fmap in Hin as (it & Hpid & Hin).
    destruct (Hlines it Hin) as [_ Hnew]. apply Hnew.
    apply list_elem_of_fmap. exists r. by rewrite Ho, Hpid.
  - rewrite Hrun in Hrun'. injection Hrun' as -> <-. by exists rows.
Qed.

(** The same for [create_order]: what stands in the tables when it has
    returned an order. *)
Lemma create_order_Some_effect db customer_id items notes order db' out :
  create_order db customer_id items notes = (Ok (Some order), db', out) →
  ∃ rows,
    order = mk_instance (fresh_pk (orders db))
              (Order.mk customer_id "pending"
                 (request_total (products db) items) notes)
    ∧ is_Some (customers db !! customer_id)
    ∧ decimal_fits 12 (request_total (products db) items) = true
    ∧ customers db' = customers db
    ∧ orders db' = <[pk order := fields order]> (orders db)
    ∧ order_items db' = order_items db ++ rows
    ∧ Forall2 (line_of_request (products db) (pk order)) items rows
    ∧ (∀ it row, it ∈ items →
         products db !! Item.product_id it = Some row →
         products db' !! Item.product_id it
         = Some (Product.with_quantity row
                   (Product.quantity row - Item.quantity it)))
    ∧ (∀ k, k ∉ Item.product_id <$> items →
         products db' !! k = products db !! k).
Proof.
  intros Hrun.
  destruct (create_order_cases db customer_id items notes)
    as [(e & tx & _ & out' & Hfail)|(order' & tx & Htry & Hok)];
    [by rewrite Hfail in Hrun|].
  rewrite Hok in Hrun. injection Hrun as -> <- <-.
  apply create_order_try_Ok_inv in Htry
    as (Hc & total & tx2 & Hloop & Hfit & -> & ->).
  pose proof (create_order_loop_frame _ _ _ _ _ _ Hloop) as (Hcs & Hos & _).
  apply create_order_loop_Ok_effect in Hloop
    as (rows & -> & Hitems & Hrows & Hstock & Hother).
  unfold with_order, set_orders, pending_order
    in Hcs, Hos, Hitems, Hrows, Hstock, Hother.
  cbn [store customers products orders order_items pk fields]
    in Hcs, Hos, Hitems, Hrows, Hstock, Hother.
  rewrite (sum_lines_request_total _ _ _ _ Hrows), Z.add_0_l in Hfit |- *.
  exists rows. unfold with_order, set_orders, Order.set_total_amount,
    pending_order, Order.with_total_amount.
  cbn [pk fields customers products orders order_items Order.customer
       Order.status Order.notes].
  rewrite Hos, insert_insert_eq. done.
Qed.








(** ** Stock and lines *)

Lemma sum_Z_app (l1 l2 : list Z) : sum_Z (l1 ++ l2) = sum_Z l1 + sum_Z l2.
Proof.
  unfold sum_Z. induction l1 as [|x l1 IH]; [done|].
  cbn [app foldr]. rewrite IH. lia.
Qed.

Lemma on_order_app db rows product_id :
  sum_Z (OrderItem.quantity
           <$> filter (λ r, OrderItem.product r = product_id)
                 (order_items db ++ rows))
  = on_order db product_id
    + sum_Z (OrderItem.quantity
               <$> filter (λ r, OrderItem.product r = product_id) rows).
Proof. unfold on_order. by rewrite filter_app, fmap_app, sum_Z_app. Qed.

(** X4.  Whatever [create_order] does, for every product the units in
    stock plus the units on stored order lines are what they were: a
    successful call moves units from stock to lines, a failed one moves
    nothing. *)
Theorem create_order_conserves_units db customer_id items notes product_id :
  on_hand (create_order db customer_id items notes).1.2 product_id
  + on_order (create_order db customer_id items notes).1.2 product_id
  = on_hand db product_id + on_order db product_id.
Proof.
  destruct (create_order_tables db customer_id items notes)
    as [->|(total & tx2 & Hloop & _ & ->)]; [done|].
  revert Hloop.
  set (order := pending_order customer_id notes db).
  set (tx := mkTx (with_order order db) [] false).
  intros Hloop.
  assert (on_hand (store tx2) product_id + on_order (store tx2) product_id
          = on_hand (store tx) product_id + on_order (store tx) product_id)
    as Hkept; [|exact Hkept].
  refine (create_order_loop_ind order
    (λ t, on_hand (store t) product_id + on_order (store t) product_id
          = on_hand (store tx) product_id + on_order (store tx) product_id)
    _ items 0 tx _ tx2 Hloop eq_refl).
  intros t item row Ht Hrow _ _. rewrite <- Ht.
  unfold on_hand at 1, on_order at 1, after_line.
  cbn [store products order_items]. rewrite on_order_app.
  rewrite filter_cons, filter_nil. cbn [new_line OrderItem.product].
  destruct (decide (Item.product_id item = product_id)) as [<-|Hne].
  - rewrite lookup_insert_eq. unfold on_hand. rewrite Hrow. cbn. lia.
  - rewrite lookup_insert_ne by done. unfold on_hand. cbn. lia.
Qed.

(** ** Invariants of every reachable state *)

Lemma run_calls_ind (P : DB → Prop) :
  (∀ c db, P db → P (run_call c db)) →
  ∀ cs db, P db → P (run_calls cs db).
Proof.
  intros Hstep cs. unfold run_calls.
  induction cs as [|c cs IH]; intros db Hdb; [done|].
  cbn. apply IH. by apply Hstep.
Qed.

(** The scan for a stored value, as a statement on the table. *)
Lemma existsb_map_values {A} (f : A → bool) (m : gmap Z A) :
  existsb f (snd <$> map_to_list m) = false ↔
  ∀ k x, m !! k = Some x → f x = false.
Proof.
  split.
  - intros Hnone k x Hk. apply elem_of_map_to_list in Hk.
    destruct (f x) eqn:Hfx; [|done].
    assert (existsb f (snd <$> map_to_list m) = true) as Htrue; [|congruence].
    apply existsb_exists. exists x. split; [|done].
    apply list_elem_of_In, list_elem_of_fmap. by exists (k, x).
  - intros Hall. destruct (existsb f _) eqn:Hex; [|done].
    apply existsb_exists in Hex as (x & Hin & Hfx).
    apply list_elem_of_In, list_elem_of_fmap in Hin as ([k x'] & -> & Hin).
    apply elem_of_map_to_list in Hin. cbn in Hfx.
    rewrite (Hall k x' Hin) in Hfx. done.
Qed.

(** When [create_customer] and [create_product] write, and what. *)
Lemma create_customer_stored db kwargs :
  (create_customer db kwargs).1.2 = db
  ∨ ((∀ k c, customers db !! k = Some c →
        Customer.email c ≠ Customer.email kwargs)
     ∧ (create_customer db kwargs).1.2
       = set_customers db
           (<[fresh_pk (customers db) := kwargs]> (customers db))).
Proof.
  unfold create_customer, atomic, create_customer_except,
    Customer_objects_create.
  msimpl. destruct (negb _); [by left|].
  destruct (existsb _ _) eqn:Hex; [by left|]. right. split; [|done].
  intros k c Hk. eapply existsb_map_values in Hex; [|exact Hk].
  by apply bool_decide_eq_false in Hex.
Qed.


(** The loop rewrites the quantity of a product and nothing else of it. *)
Lemma create_order_loop_products order items total tx r tx' k :
  create_order_loop order items total tx = (r, tx') →
  match products (store tx) !! k, products (store tx') !! k with
  | Some p, Some p' => p' = Product.with_quantity p (Product.quantity p')
  | None, None => True
  | _, _ => False
  end.
Proof.
  intros Hrun.
  refine (create_order_loop_ind order
    (λ t, match products (store tx) !! k, products (store t) !! k with
          | Some p, Some p' =>
              p' = Product.with_quantity p (Product.quantity p')
          | None, None => True
          | _, _ => False
          end) _ items total tx r tx' Hrun _).
  - intros t item row Ht Hrow _ _. cbn.
    destruct (decide (Item.product_id item = k)) as [Heq|Hne].
    + rewrite Heq in Hrow |- *. rewrite lookup_insert_eq. rewrite Hrow in Ht.
      destruct (products (store tx) !! k) as [p|]; [|done].
      rewrite Ht. by destruct p.
    + by rewrite lookup_insert_ne.
  - destruct (products (store tx) !! k) as [p|]; [|done]. by destruct p.
Qed.

Lemma create_order_products db customer_id items notes k :
  match products db !! k,
        products (create_order db customer_id items notes).1.2 !! k with
  | Some p, Some p' => p' = Product.with_quantity p (Product.quantity p')
  | None, None => True
  | _, _ => False
  end.
Proof.
  destruct (create_order_tables db customer_id items notes)
    as [->|(total & tx2 & Hloop & _ & ->)].
  - destruct (products db !! k) as [p|]; [|done]. by destruct p.
  - apply (create_order_loop_products _ _ _ _ _ _ k) in Hloop. exact Hloop.
Qed.

(** X5.  After any sequence of handler calls on the empty database no two
    customers share an email. *)
Theorem emails_stay_unique cs : unique_emails (run_calls cs empty_db).
Proof.
  apply run_calls_ind.
  - intros c db Hu. destruct c as [kw|kw|cid items notes|oid s]; cbn.
    + destruct (create_customer_stored db kw) as [->|[Hnew ->]]; [done|].
      intros k1 k2 c1 c2. cbn.
      destruct (decide (fresh_pk (customers db) = k1)) as [<-|Hne1];
        destruct (decide (fresh_pk (customers db) = k2)) as [<-|Hne2];
        rewrite ?lookup_insert_eq, ?lookup_insert_ne by done; try done.
      * intros [= <-] Hc2 Heq. by destruct (Hnew k2 c2 Hc2).
      * intros Hc1 [= <-] Heq. by destruct (Hnew k1 c1 Hc1).
      * apply Hu.
    + destruct (create_product_tables db kw) as [->| ->]; done.
    + destruct (create_order_tables db cid items notes)
        as [->|(total & tx2 & Hloop & _ & ->)]; [done|].
      apply create_order_loop_frame in Hloop as (Hcs & _).
      intros k1 k2 c1 c2. cbn. cbn in Hcs. rewrite Hcs. apply Hu.
    + destruct (update_order_status_tables db oid s)
        as [->|(row & _ & _ & ->)]; done.
  - intros k1 k2 c1 c2 Hk1. cbn in Hk1. by rewrite lookup_empty in Hk1.
Qed.


Lemma Forall2_elem_of_r {A B} (P : A → B → Prop) l k y :
  Forall2 P l k → y ∈ k → ∃ x, x ∈ l ∧ P x y.
Proof.
  induction 1 as [|x y' l k Hxy _ IH]; intros Hin;
    [by apply elem_of_nil in Hin|].
  apply elem_of_cons in Hin as [->|Hin].
  - exists x. split; [by left|done].
  - destruct (IH Hin) as (x' & Hx' & HP). exists x'. split; [by right|done].
Qed.

Lemma create_order_products_is_Some db customer_id items notes k :
  is_Some (products db !! k) →
  is_Some (products (create_order db customer_id items notes).1.2 !! k).
Proof.
  intros [p Hp].
  pose proof (create_order_products db customer_id items notes k) as Hk.
  rewrite Hp in Hk.
  destruct (products (create_order db customer_id items notes).1.2 !! k);
    [by eexists|done].
Qed.

Lemma foreign_keys_run_call c db :
  foreign_keys_ok db → foreign_keys_ok (run_call c db).
Proof.
  intros [Hcustomer Hline].
  destruct c as [kw|kw|cid items notes|oid s]; cbn.
  - destruct (create_customer_tables db kw) as [->| ->]; [done|].
    split; [|done]. intros k o Ho. cbn.
    apply lookup_insert_is_Some'. right. by apply (Hcustomer k).
  - destruct (create_product_tables db kw) as [->| ->]; [done|].
    split; [done|]. intros r Hr. destruct (Hline r Hr) as [Ho Hp].
    split; [done|]. cbn. apply lookup_insert_is_Some'. by right.
  - destruct (create_order_None_or_Some db cid items notes)
      as [(out & Hrun)|(order & db' & out & Hrun)]; [by rewrite Hrun|].
    pose proof (create_order_products_is_Some db cid items notes) as Hkept.
    rewrite Hrun in Hkept |- *. cbn [fst snd] in Hkept |- *.
    apply create_order_Some_effect in Hrun
      as (rows & -> & Hc & _ & Hcs & Hos & Hitems & Hrows & _).
    cbn [pk fields] in Hos, Hrows. split.
    + intros k o. rewrite Hos, Hcs.
      destruct (decide (fresh_pk (orders db) = k)) as [<-|Hne].
      * rewrite lookup_insert_eq. by intros [= <-].
      * rewrite lookup_insert_ne by done. apply Hcustomer.
    + intros r. rewrite Hitems, elem_of_app, Hos. intros [Hr|Hr].
      * destruct (Hline r Hr) as [Ho Hp]. split; [|by apply Hkept].
        apply lookup_insert_is_Some'. by right.
      * destruct (Forall2_elem_of_r _ _ _ _ Hrows Hr)
          as (it & _ & Ho & Hpid & _ & p & Hp & _).
        split.
        -- rewrite Ho, lookup_insert_eq. by eexists.
        -- apply Hkept. rewrite Hpid, Hp. by eexists.
  - destruct (update_order_status_tables db oid s)
      as [->|(row & Hrow & _ & ->)]; [done|]. split.
    + intros k o. cbn. destruct (decide (oid = k)) as [<-|Hne].
      * rewrite lookup_insert_eq. intros [= <-].
        exact (Hcustomer oid row Hrow).
      * rewrite lookup_insert_ne by done. apply Hcustomer.
    + intros r Hr. destruct (Hline r Hr) as [Ho Hp]. split; [|done].
      cbn. apply lookup_insert_is_Some'. by right.
Qed.

(** X7.  After any sequence of handler calls on the empty database every
    order refers to a stored customer and every order line to a stored
    order and a stored product. *)
Theorem foreign_keys_hold cs : foreign_keys_ok (run_calls cs empty_db).
Proof.
  apply run_calls_ind; [apply foreign_keys_run_call|]. split.
  - intros k o Ho. cbn in Ho. by rewrite lookup_empty in Ho.
  - intros r Hr. by apply elem_of_nil in Hr.
Qed.





(** ** Customers and products *)


Lemma create_customer_unfold db kwargs :
  create_customer db kwargs =
  if negb (char_fits 100 (Customer.first_name kwargs)
           && char_fits 100 (Customer.last_name kwargs)
           && char_fits 254 (Customer.email kwargs)
           && char_fits 20 (Customer.phone kwargs)) then
    (Ok None, db,
     ["❌ Неожиданная ошибка при создании клиента: "
      +:+ "value too long for type character varying"])
  else if existsb
            (λ c, bool_decide (Customer.email c = Customer.email kwargs))
            (snd <$> map_to_list (customers db)) then
    (Ok None, db,
     ["❌ Ошибка при создании клиента (дубликат email): "
      +:+ "duplicate key value violates unique constraint on email"])
  else
    (Ok (Some (mk_instance (fresh_pk (customers db)) kwargs)),
     set_customers db (<[fresh_pk (customers db) := kwargs]> (customers db)),
     ["✅ Клиент создан: " +:+ Customer.str kwargs]).
Proof.
  unfold create_customer, atomic, create_customer_except,
    Customer_objects_create.
  msimpl. destruct (negb _); [done|]. by destruct (existsb _ _).
Qed.

Lemma create_product_unfold db kwargs :
  create_product db kwargs =
  if negb (char_fits 200 (Product.name kwargs)
           && char_fits 50 (Product.category kwargs)
           && char_fits 50 (Product.sku kwargs)
           && decimal_fits 10 (Product.price kwargs)) then
    (Ok None, db,
     ["❌ Неожиданная ошибка при создании товара: "
      +:+ "value out of range for its column"])
  else if existsb (λ p, bool_decide (Product.sku p = Product.sku kwargs))
            (snd <$> map_to_list (products db)) then
    (Ok None, db,
     ["❌ Ошибка при создании товара (дубликат артикула): "
      +:+ "duplicate key value violates unique constraint on sku"])
  else
    (Ok (Some (mk_instance (fresh_pk (products db)) kwargs)),
     set_products db (<[fresh_pk (products db) := kwargs]> (products db)),
     ["✅ Товар создан: " +:+ Product.str kwargs]).
Proof.
  unfold create_product, atomic, create_product_except,
    Product_objects_create.
  msimpl. destruct (negb _); [done|]. by destruct (existsb _ _).
Qed.



(** X10.  [create_customer] with the email of a stored customer returns
    [None] and leaves the database as it was. *)
Theorem create_customer_duplicate_email db kwargs k stored :
  customers db !! k = Some stored →
  Customer.email stored = Customer.email kwargs →
  (create_customer db kwargs).1 = (Ok None, db).
Proof.
  intros Hk Hemail. rewrite create_customer_unfold.
  destruct (negb _); [done|].
  destruct (existsb _ _) eqn:Hex; [done|].
  eapply existsb_map_values in Hex; [|exact Hk].
  by apply bool_decide_eq_false in Hex.
Qed.

(** Another customer with the email stored in the sample shop. *)
Lemma create_customer_duplicate_email_witness :
  (create_customer shop
     (Customer.mk "Пётр" "Иванов" "ivan@test.com" "" "")).1
  = (Ok None, shop).
Proof.
  apply (create_customer_duplicate_email shop
           (Customer.mk "Пётр" "Иванов" "ivan@test.com" "" "") 1 ivanov);
    reflexivity.
Defined.

(** The rows a filter of [products] lists. *)
Lemma Product_objects_filter_run keep tx :
  ∃ l, Product_objects_filter keep tx = (Ok l, tx)
       ∧ ∀ p, p ∈ l ↔ products (store tx) !! pk p = Some (fields p)
                      ∧ keep (fields p) = true.
Proof.
  unfold Product_objects_filter. msimpl. eexists. split; [done|].
  intros p. rewrite list_elem_of_fmap. split.
  - intros ([k row] & -> & Hin). apply list_elem_of_filter in Hin as [Hk Hin].
    apply elem_of_map_to_list in Hin. done.
  - intros [Hp Hk]. exists (pk p, fields p). split; [by destruct p|].
    apply list_elem_of_filter. split; [done|]. by apply elem_of_map_to_list.
Qed.


Lemma get_low_stock_products_run db threshold :
  ∃ l, get_low_stock_products db threshold = (Ok l, db, [])
       ∧ ∀ p, p ∈ l ↔ products db !! pk p = Some (fields p)
                      ∧ Product.quantity (fields p) < threshold
                      ∧ Product.is_active (fields p) = true.
Proof.
  unfold get_low_stock_products, autocommit, try_except.
  destruct (Product_objects_filter_run
              (λ p, (Product.quantity p <? threshold) && Product.is_active p)
              (mkTx db [] false))
    as (l & -> & Hl).
  exists l. split; [done|]. intros p. rewrite Hl. cbn [store].
  rewrite andb_true_iff, Z.ltb_lt. done.
Qed.



(** X12.  [create_product] with the sku of a stored product returns
    [None] and leaves the database as it was. *)
Theorem create_product_duplicate_sku db kwargs k stored :
  products db !! k = Some stored →
  Product.sku stored = Product.sku kwargs →
  (create_product db kwargs).1 = (Ok None, db).
Proof.
  intros Hk Hsku. rewrite create_product_unfold.
  destruct (negb _); [done|].
  destruct (existsb _ _) eqn:Hex; [done|].
  eapply existsb_map_values in Hex; [|exact Hk].
  by apply bool_decide_eq_false in Hex.
Qed.

(** The notebook of the sample shop, offered again. *)
Lemma create_product_duplicate_sku_witness :
  (create_product shop (Product.with_quantity notebook 3)).1 = (Ok None, shop).
Proof.
  apply (create_product_duplicate_sku shop (Product.with_quantity notebook 3)
           1 notebook); reflexivity.
Defined.

(** X13.  After [create_order] has returned an order,
    [get_low_stock_products] lists every requested product that is active
    and whose remaining stock is below the threshold, with that remaining
    stock; a listed product that the request does not name is as it was
    before the order. *)
Theorem create_order_then_low_stock db customer_id items notes order db' out
    threshold :
  create_order db customer_id items notes = (Ok (Some order), db', out) →
  ∃ l, get_low_stock_products db' threshold = (Ok l, db', [])
       ∧ (∀ it row, it ∈ items →
            products db !! Item.product_id it = Some row →
            Product.is_active row = true →
            Product.quantity row - Item.quantity it < threshold →
            mk_instance (Item.product_id it)
              (Product.with_quantity row
                 (Product.quantity row - Item.quantity it)) ∈ l)
       ∧ (∀ p, p ∈ l → pk p ∉ Item.product_id <$> items →
            products db !! pk p = Some (fields p)).
Proof.
  intros Hrun. apply create_order_Some_effect in Hrun
    as (rows & _ & _ & _ & _ & _ & _ & _ & Hstock & Hother).
  destruct (get_low_stock_products_run db' threshold) as (l & Hl & Hmem).
  exists l. split; [done|]. split.
  - intros it row Hin Hrow Hactive Hlow. apply Hmem. cbn.
    split; [by apply Hstock|done].
  - intros p Hp Hnot. apply Hmem in Hp as (Hp & _). by rewrite <- Hother.
Qed.

(** Two notebooks out of ten leave eight, below a threshold of 10. *)
Lemma create_order_then_low_stock_witness :
  ∃ l, get_low_stock_products
         (create_order shop 1 [Item.mk 1 2; Item.mk 2 3] "").1.2 10
       = (Ok l, (create_order shop 1 [Item.mk 1 2; Item.mk 2 3] "").1.2, [])
       ∧ mk_instance 1 (Product.with_quantity notebook 8) ∈ l.
Proof.
  destruct (create_order_then_low_stock shop 1 [Item.mk 1 2; Item.mk 2 3] ""
              (mk_instance 1 (Order.mk 1 "pending" 19000000 ""))
              (create_order shop 1 [Item.mk 1 2; Item.mk 2 3] "").1.2
              ["✅ Заказ создан: #1"] 10)
    as (l & Hrun & Hlow & _).
  - vm_compute. reflexivity.
  - exists l. split; [exact Hrun|].
    apply (Hlow (Item.mk 1 2) notebook).
    + by left.
    + reflexivity.
    + reflexivity.
    + cbn. lia.
Defined.

(** ** The counts of [get_database_stats] *)

Lemma get_database_stats_unfold db :
  get_database_stats db
  = (Ok (Stats.mk
           (count (customers db))
           (count (products db))
           (count_where Product.is_active (products db))
           (count (orders db))
           (count_where (λ o, bool_decide (Order.status o = "pending"))
              (orders db))),
     db, []).
Proof. reflexivity. Qed.

(** Tables with the same keys have the same count. *)
Lemma size_same_keys {A B} (m1 : gmap Z A) (m2 : gmap Z B) :
  (∀ k, is_Some (m1 !! k) ↔ is_Some (m2 !! k)) → size m1 = size m2.
Proof.
  intros Hkeys. rewrite <- !size_dom. f_equal. apply set_eq. intros k.
  rewrite !elem_of_dom. apply Hkeys.
Qed.

Lemma count_where_same {A} (keep : A → bool) (m1 m2 : gmap Z A) :
  (∀ k, match m1 !! k, m2 !! k with
        | Some x, Some y => keep x = keep y
        | None, None => True
        | _, _ => False
        end) →
  count m1 = count m2 ∧ count_where keep m1 = count_where keep m2.
Proof.
  intros Hsame. unfold count, count_where. split; f_equal.
  - apply size_same_keys. intros k. specialize (Hsame k).
    destruct (m1 !! k), (m2 !! k); first [done | by split; eexists].
  - apply size_same_keys. intros k. specialize (Hsame k).
    unfold is_Some. setoid_rewrite map_lookup_filter_Some. cbn.
    destruct (m1 !! k) as [x|], (m2 !! k) as [y|]; try done;
      first [ split; intros (z & [= <-] & Hz); eexists; (split; [done|]);
              congruence
            | split; by intros (z & [=] & _) ].
Qed.

Lemma count_where_insert_new {A} (keep : A → bool) (m : gmap Z A) k x :
  m !! k = None →
  count (<[k := x]> m) = count m + 1
  ∧ count_where keep (<[k := x]> m)
    = count_where keep m + (if keep x then 1 else 0).
Proof.
  intros Hk. unfold count, count_where. split.
  - rewrite map_size_insert_None by done. lia.
  - destruct (keep x) eqn:Hx.
    + rewrite map_filter_insert_True by done.
      rewrite map_size_insert_None; [lia|].
      apply map_lookup_filter_None. by left.
    + rewrite map_filter_insert_False by (cbn; congruence).
      rewrite delete_id by done. lia.
Qed.

Lemma count_where_insert_old {A} (keep : A → bool) (m : gmap Z A) k x y :
  m !! k = Some y →
  count (<[k := x]> m) = count m
  ∧ count_where keep (<[k := x]> m)
    = count_where keep m - (if keep y then 1 else 0)
      + (if keep x then 1 else 0).
Proof.
  intros Hk. unfold count, count_where. split.
  - by rewrite map_size_insert_Some.
  - rewrite <- (insert_delete_id m k y Hk) at 2.
    rewrite <- (insert_delete_eq m).
    assert (delete k m !! k = None) as Hdel by apply lookup_delete_eq.
    destruct (count_where_insert_new keep (delete k m) k x Hdel) as [_ Hx].
    destruct (count_where_insert_new keep (delete k m) k y Hdel) as [_ Hy].
    unfold count_where in Hx, Hy. rewrite Hx, Hy. lia.
Qed.

(** X14.  An order returned by [create_order] raises [orders] and
    [pending_orders] of [get_database_stats] by one and leaves the counts
    of customers, products and active products as they were. *)
Theorem create_order_then_stats db customer_id items notes order db' out :
  create_order db customer_id items notes = (Ok (Some order), db', out) →
  ∃ s s',
    get_database_stats db = (Ok s, db, [])
    ∧ get_database_stats db' = (Ok s', db', [])
    ∧ Stats.customers s' = Stats.customers s
    ∧ Stats.products s' = Stats.products s
    ∧ Stats.active_products s' = Stats.active_products s
    ∧ Stats.orders s' = Stats.orders s + 1
    ∧ Stats.pending_orders s' = Stats.pending_orders s + 1.
Proof.
  intros Hrun. rewrite !get_database_stats_unfold. eexists _, _.
  split; [done|]. split; [done|]. cbn.
  pose proof (create_order_products db customer_id items notes) as Hproducts.
  rewrite Hrun in Hproducts. cbn [fst snd] in Hproducts.
  apply create_order_Some_effect in Hrun
    as (rows & -> & _ & _ & -> & -> & _).
  cbn [pk fields].
  destruct (count_where_same Product.is_active (products db') (products db))
    as [-> ->].
  { intros k. specialize (Hproducts k).
    destruct (products db !! k) as [p|], (products db' !! k) as [p'|];
      try done. by rewrite Hproducts. }
  destruct (count_where_insert_new
              (λ o, bool_decide (Order.status o = "pending")) (orders db)
              (fresh_pk (orders db))
              (Order.mk customer_id "pending"
                 (request_total (products db) items) notes)
              (fresh_pk_lookup _)) as [-> ->].
  done.
Qed.

(** The counts of the sample shop before and after an order. *)
Lemma create_order_then_stats_witness :
  ∃ s s',
    get_database_stats shop = (Ok s, shop, [])
    ∧ get_database_stats (create_order shop 1 [Item.mk 1 2; Item.mk 2 3] "").1.2
      = (Ok s', (create_order shop 1 [Item.mk 1 2; Item.mk 2 3] "").1.2, [])
    ∧ Stats.customers s' = Stats.customers s
    ∧ Stats.products s' = Stats.products s
    ∧ Stats.active_products s' = Stats.active_products s
    ∧ Stats.orders s' = Stats.orders s + 1
    ∧ Stats.pending_orders s' = Stats.pending_orders s + 1.
Proof.
  apply (create_order_then_stats shop 1 [Item.mk 1 2; Item.mk 2 3] ""
           (mk_instance 1 (Order.mk 1 "pending" 19000000 ""))
           (create_order shop 1 [Item.mk 1 2; Item.mk 2 3] "").1.2
           ["✅ Заказ создан: #1"]).
  vm_compute. reflexivity.
Defined.

(** X15.  A status update that goes through leaves every count of
    [get_database_stats] but [pending_orders], which loses one if the
    order was pending and gains one if the new status is 'pending'. *)
Theorem update_order_status_then_stats db order_id new_status db' out row :
  update_order_status db order_id new_status = (Ok true, db', out) →
  orders db !! order_id = Some row →
  ∃ s s',
    get_database_stats db = (Ok s, db, [])
    ∧ get_database_stats db' = (Ok s', db', [])
    ∧ Stats.customers s' = Stats.customers s
    ∧ Stats.products s' = Stats.products s
    ∧ Stats.active_products s' = Stats.active_products s
    ∧ Stats.orders s' = Stats.orders s
    ∧ Stats.pending_orders s'
      = Stats.pending_orders s
        - (if bool_decide (Order.status row = "pending") then 1 else 0)
        + (if bool_decide (new_status = "pending") then 1 else 0).
Proof.
  intros Hrun Hrow. rewrite !get_database_stats_unfold. eexists _, _.
  split; [done|]. split; [done|]. cbn.
  rewrite update_order_status_unfold, Hrow in Hrun.
  destruct (negb (char_fits 20 new_status)); [done|].
  destruct (negb (decimal_fits 12 (Order.total_amount row))); [done|].
  injection Hrun as <- _. cbn.
  destruct (count_where_insert_old
              (λ o, bool_decide (Order.status o = "pending")) (orders db)
              order_id (Order.with_status row new_status) row Hrow)
    as [-> ->].
  done.
Qed.

(** A delivered order set back to pending. *)
Lemma update_order_status_then_stats_witness :
  ∃ s s',
    get_database_stats delivered = (Ok s, delivered, [])
    ∧ get_database_stats (update_order_status delivered 1 "pending").1.2
      = (Ok s', (update_order_status delivered 1 "pending").1.2, [])
    ∧ Stats.orders s' = Stats.orders s
    ∧ Stats.pending_orders s' = Stats.pending_orders s + 1.
Proof.
  destruct (update_order_status_then_stats delivered 1 "pending"
              (update_order_status delivered 1 "pending").1.2
              (update_order_status delivered 1 "pending").2
              (Order.mk 1 "delivered" 0 ""))
    as (s & s' & Hs & Hs' & _ & _ & _ & Horders & Hpending).
  - vm_compute. reflexivity.
  - reflexivity.
  - exists s, s'. split; [exact Hs|]. split; [exact Hs'|].
    split; [exact Horders|]. rewrite Hpending.
    rewrite bool_decide_eq_false_2 by (cbn; discriminate).
    rewrite bool_decide_eq_true_2 by reflexivity. lia.
Defined.

(** ** Status updates in a row *)



(** ** Saving a line twice *)










(** ** Setting the database up *)

Lemma filter_ext_elem_of {A} (P Q : A → Prop) `{!∀ x, Decision (P x)}
    `{!∀ x, Decision (Q x)} (l : list A) :
  (∀ x, x ∈ l → P x ↔ Q x) → filter P l = filter Q l.
Proof.
  induction l as [|a l IH]; intros Hext; [done|].
  rewrite !filter_cons.
  assert (P a ↔ Q a) as Ha by (apply Hext; by left).
  rewrite IH by (intros x Hx; apply Hext; by right).
  destruct (decide (P a)), (decide (Q a)); tauto || done.
Qed.

Lemma filter_none {A} (P : A → Prop) `{!∀ x, Decision (P x)} (l : list A) :
  (∀ x, x ∈ l → ¬ P x) → filter P l = [].
Proof.
  induction l as [|a l IH]; intros Hnone; [done|].
  rewrite filter_cons, decide_False by (apply Hnone; by left).
  apply IH. intros x Hx. apply Hnone. by right.
Qed.

Lemma list_to_set_cons_union (table : string) rest (existing : gset string) :
  list_to_set rest ∪ ({[table]} ∪ existing)
  = list_to_set (table :: rest) ∪ existing.
Proof.
  apply set_eq. intros x. cbn.
  rewrite !elem_of_union, elem_of_singleton. tauto.
Qed.

Lemma list_to_set_cons_present (table : string) rest (existing : gset string) :
  table ∈ existing →
  list_to_set rest ∪ existing = list_to_set (table :: rest) ∪ existing.
Proof.
  intros Hin. apply set_eq. intros x. cbn.
  rewrite !elem_of_union, elem_of_singleton.
  split; [tauto|]. intros [[->|?]|?]; tauto.
Qed.

Lemma ensure_tables_loop_run models : ∀ existing_tables,
  NoDup models →
  ensure_tables_loop models existing_tables
  = (list_to_set models ∪ existing_tables,
     (λ table, "  Создана таблица: " +:+ table)
       <$> filter (λ table, table ∉ existing_tables) models).
Proof.
  induction models as [|table rest IH]; intros existing Hnd.
  - cbn. f_equal. apply set_eq. intros x.
    rewrite elem_of_union, elem_of_empty. tauto.
  - apply NoDup_cons in Hnd as [Hnew Hnd]. cbn [ensure_tables_loop].
    rewrite filter_cons. case_bool_decide as Hin.
    + rewrite IH by done. rewrite decide_False by tauto.
      f_equal. by apply list_to_set_cons_present.
    + rewrite IH by done. rewrite decide_True by done.
      rewrite fmap_cons. f_equal; [apply list_to_set_cons_union|].
      do 2 f_equal. apply filter_ext_elem_of.
      intros t Ht. rewrite not_elem_of_union, not_elem_of_singleton.
      split; [tauto|]. intros Hnot. split; [|done]. by intros ->.
Qed.

(** X18.  [_ensure_tables] leaves the tables that existed together with
    the four of the models, prints one line for each model table that was
    missing, in the order customers, products, orders, order_items, and
    run again on its result creates and prints nothing. *)
Theorem ensure_tables_idempotent existing_tables :
  (_ensure_tables existing_tables).1
  = list_to_set models_to_create ∪ existing_tables
  ∧ (_ensure_tables existing_tables).2
    = (λ table, "  Создана таблица: " +:+ table)
        <$> filter (λ table, table ∉ existing_tables) models_to_create
  ∧ _ensure_tables (_ensure_tables existing_tables).1
    = ((_ensure_tables existing_tables).1, []).
Proof.
  assert (NoDup models_to_create) as Hnd.
  { unfold models_to_create.
    repeat (apply NoDup_cons; split;
      [rewrite ?elem_of_cons, elem_of_nil; intros H;
       repeat destruct H as [H|H]; done|]).
    apply NoDup_nil_2. }
  unfold _ensure_tables. rewrite !ensure_tables_loop_run by done.
  cbn [fst snd]. split; [done|]. split; [done|]. f_equal.
  - apply set_eq. intros x. rewrite !elem_of_union. tauto.
  - rewrite filter_none; [done|].
    intros t Ht Hnot. apply Hnot.
    apply elem_of_union. left. by apply elem_of_list_to_set.
Qed.

Lemma foldl_preserves {A} (f : DB → A → DB) (P : DB → Prop) rows :
  (∀ db b, P db → P (f db b)) → ∀ db, P db → P (foldl f db rows).
Proof.
  intros Hstep. induction rows as [|b rows IH]; intros db HP; [done|].
  cbn. apply IH. by apply Hstep.
Qed.

(** Rows fed one by one to a call that stores what it does not know yet
    and skips what it knows. *)
Section Seeding.

Context {A : Type} (f : DB → A → DB) (known : DB → A → Prop) (ok : A → Prop).

Hypothesis keeps : ∀ db a b, known db a → known (f db b) a.
Hypothesis stores : ∀ db a, ok a → known (f db a) a.
Hypothesis skips : ∀ db a, known db a → f db a = db.

Lemma foldl_keeps rows : ∀ db a, known db a → known (foldl f db rows) a.
Proof.
  induction rows as [|b rows IH]; intros db a Ha; [done|].
  cbn. apply IH. by apply keeps.
Qed.

Lemma foldl_stores rows : ∀ db,
  (∀ a, a ∈ rows → ok a) → ∀ a, a ∈ rows → known (foldl f db rows) a.
Proof.
  induction rows as [|b rows IH]; intros db Hok a Hin;
    [by apply elem_of_nil in Hin|].
  cbn. apply elem_of_cons in Hin as [->|Hin].
  - apply foldl_keeps. apply stores. apply Hok. by left.
  - apply IH; [|done]. intros a' Ha'. apply Hok. by right.
Qed.

Lemma foldl_skips rows : ∀ db,
  (∀ a, a ∈ rows → known db a) → foldl f db rows = db.
Proof.
  induction rows as [|b rows IH]; intros db Hknown; [done|].
  cbn. rewrite skips by (apply Hknown; by left).
  apply IH. intros a Ha. apply Hknown. by right.
Qed.

End Seeding.

Lemma for_each_tables {A B} (f : DB → A → B * DB * list string) rows :
  ∀ start,
    (for_each f rows start).1 = foldl (λ db row, (f db row).1.2) start.1 rows.
Proof.
  unfold for_each. induction rows as [|row rows IH]; intros start; [done|].
  cbn [foldl]. rewrite IH. cbn. by destruct (f start.1 row) as [[? ?] ?].
Qed.

Lemma existsb_map_values_true {A} (f : A → bool) (m : gmap Z A) :
  existsb f (snd <$> map_to_list m) = true →
  ∃ k x, m !! k = Some x ∧ f x = true.
Proof.
  intros Hex. apply existsb_exists in Hex as (x & Hin & Hfx).
  apply list_elem_of_In, list_elem_of_fmap in Hin as ([k x'] & -> & Hin).
  apply elem_of_map_to_list in Hin. by exists k, x'.
Qed.

Lemma create_customer_keeps_email db kwargs email :
  has_email db email → has_email (create_customer db kwargs).1.2 email.
Proof.
  intros (k & c & Hk & Hc).
  destruct (create_customer_tables db kwargs) as [->| ->]; [by exists k, c|].
  exists k, c. split; [|done]. cbn. rewrite lookup_insert_ne; [done|].
  intros <-. by rewrite fresh_pk_lookup in Hk.
Qed.

Lemma create_customer_stores_email db kwargs :
  char_fits 100 (Customer.first_name kwargs)
  && char_fits 100 (Customer.last_name kwargs)
  && char_fits 254 (Customer.email kwargs)
  && char_fits 20 (Customer.phone kwargs) = true →
  has_email (create_customer db kwargs).1.2 (Customer.email kwargs).
Proof.
  intros Hfits. rewrite create_customer_unfold, Hfits. cbn [negb].
  destruct (existsb _ _) eqn:Hex.
  - apply existsb_map_values_true in Hex as (k & c & Hk & Hc).
    apply bool_decide_eq_true in Hc. by exists k, c.
  - exists (fresh_pk (customers db)), kwargs. cbn.
    by rewrite lookup_insert_eq.
Qed.

Lemma create_customer_skips_email db kwargs :
  has_email db (Customer.email kwargs) → (create_customer db kwargs).1.2 = db.
Proof.
  intros (k & c & Hk & Hc). rewrite create_customer_unfold.
  destruct (negb _); [done|]. destruct (existsb _ _) eqn:Hex; [done|].
  eapply existsb_map_values in Hex; [|exact Hk].
  by apply bool_decide_eq_false in Hex.
Qed.

Lemma create_product_keeps_sku db kwargs sku :
  has_sku db sku → has_sku (create_product db kwargs).1.2 sku.
Proof.
  intros (k & p & Hk & Hp).
  destruct (create_product_tables db kwargs) as [->| ->]; [by exists k, p|].
  exists k, p. split; [|done]. cbn. rewrite lookup_insert_ne; [done|].
  intros <-. by rewrite fresh_pk_lookup in Hk.
Qed.

Lemma create_product_stores_sku db kwargs :
  char_fits 200 (Product.name kwargs)
  && char_fits 50 (Product.category kwargs)
  && char_fits 50 (Product.sku kwargs)
  && decimal_fits 10 (Product.price kwargs) = true →
  has_sku (create_product db kwargs).1.2 (Product.sku kwargs).
Proof.
  intros Hfits. rewrite create_product_unfold, Hfits. cbn [negb].
  destruct (existsb _ _) eqn:Hex.
  - apply existsb_map_values_true in Hex as (k & p & Hk & Hp).
    apply bool_decide_eq_true in Hp. by exists k, p.
  - exists (fresh_pk (products db)), kwargs. cbn.
    by rewrite lookup_insert_eq.
Qed.

Lemma create_product_skips_sku db kwargs :
  has_sku db (Product.sku kwargs) → (create_product db kwargs).1.2 = db.
Proof.
  intros (k & p & Hk & Hp). rewrite create_product_unfold.
  destruct (negb _); [done|]. destruct (existsb _ _) eqn:Hex; [done|].
  eapply existsb_map_values in Hex; [|exact Hk].
  by apply bool_decide_eq_false in Hex.
Qed.

Lemma create_product_keeps_email db kwargs email :
  has_email db email → has_email (create_product db kwargs).1.2 email.
Proof. by destruct (create_product_tables db kwargs) as [->| ->]. Qed.

Lemma test_rows_fit :
  (∀ kw, kw ∈ test_customers →
     char_fits 100 (Customer.first_name kw)
     && char_fits 100 (Customer.last_name kw)
     && char_fits 254 (Customer.email kw)
     && char_fits 20 (Customer.phone kw) = true)
  ∧ (∀ kw, kw ∈ test_products →
       char_fits 200 (Product.name kw)
       && char_fits 50 (Product.category kw)
       && char_fits 50 (Product.sku kw)
       && decimal_fits 10 (Product.price kw) = true).
Proof.
  split; intros kw Hin; unfold test_customers, test_products in Hin;
    repeat (apply elem_of_cons in Hin as [->|Hin]; [vm_compute; reflexivity|]);
    by apply elem_of_nil in Hin.
Qed.

(** X19.  After [create_test_data] every test email and every test sku
    is stored, whatever the database held before; running it again
    returns [True] and leaves the tables as the first run left them. *)
Theorem create_test_data_idempotent banner banner' db :
  (∀ kw, kw ∈ test_customers →
     has_email (create_test_data banner db).1.2 (Customer.email kw))
  ∧ (∀ kw, kw ∈ test_products →
       has_sku (create_test_data banner db).1.2 (Product.sku kw))
  ∧ (create_test_data banner' (create_test_data banner db).1.2).1
    = (true, (create_test_data banner db).1.2).
Proof.
  destruct test_rows_fit as [Hcustomers Hproducts].
  unfold create_test_data. cbn [fst snd]. rewrite !for_each_tables.
  cbn [fst snd].
  set (add_customer := λ (d : DB) kw, (create_customer d kw).1.2).
  set (add_product := λ (d : DB) kw, (create_product d kw).1.2).
  set (db1 := foldl add_customer db test_customers).
  set (db2 := foldl add_product db1 test_products).
  assert (∀ kw, kw ∈ test_customers → has_email db2 (Customer.email kw))
    as Hemails.
  { intros kw Hin. unfold db2.
    apply (foldl_preserves add_product
             (λ d, has_email d (Customer.email kw))).
    - intros d b. apply create_product_keeps_email.
    - apply (foldl_stores add_customer
               (λ d kw, has_email d (Customer.email kw))
               (λ kw, char_fits 100 (Customer.first_name kw)
                      && char_fits 100 (Customer.last_name kw)
                      && char_fits 254 (Customer.email kw)
                      && char_fits 20 (Customer.phone kw) = true));
        [|intros; by apply create_customer_stores_email|done|done].
      intros d a b. apply create_customer_keeps_email. }
  assert (∀ kw, kw ∈ test_products → has_sku db2 (Product.sku kw)) as Hskus.
  { apply (foldl_stores add_product
             (λ d kw, has_sku d (Product.sku kw))
             (λ kw, char_fits 200 (Product.name kw)
                    && char_fits 50 (Product.category kw)
                    && char_fits 50 (Product.sku kw)
                    && decimal_fits 10 (Product.price kw) = true));
      [|intros; by apply create_product_stores_sku|done].
    intros d a b. apply create_product_keeps_sku. }
  split; [done|]. split; [done|]. f_equal.
  rewrite (foldl_skips add_customer
             (λ d kw, has_email d (Customer.email kw)));
    [|intros; by apply create_customer_skips_email|done].
  apply (foldl_skips add_product (λ d kw, has_sku d (Product.sku kw)));
    [intros; by apply create_product_skips_sku|done].
Qed.
